(** * HooRAGLib: the OpenAI wrapper [OpenAILLM] and its retriever protocol

    A shallow embedding of [src/HooRAGLib/Models/OpenAI.py] together with
    the parts of [Retrievers/BaseRetriever.py] and [Helpers/Errors.py] it
    relies on.  Python exceptions become an explicit result type, the
    instance attributes become a record of optional fields (so that
    [hasattr] can be asked), retriever objects live in a heap and are
    referred to by address, and every call that leaves the wrapper (provider
    or retriever) is appended to a trace. *)

From Stdlib Require Import ZArith.
From stdpp Require Import base option strings list gmap.

Set Warnings "-register-all".
Local Open Scope string_scope.

(** ** Python values and exceptions *)

Definition addr := nat.

(** The dynamically typed values the wrapper handles: [None], booleans,
    integers, strings, lists and references to heap objects. *)
Inductive pyval : Type :=
  | PyNone
  | PyBool (b : bool)
  | PyInt (z : Z)
  | PyStr (s : string)
  | PyList (l : list pyval)
  | PyRef (a : addr).

(** Truth value testing ([not x], [if x]): [None], [False], [0], the empty
    string and the empty list are false; an object is true by default. *)
Definition truthy (v : pyval) : bool :=
  match v with
  | PyNone => false
  | PyBool b => b
  | PyInt z => negb (Z.eqb z 0)
  | PyStr s => negb (String.eqb s "")
  | PyList l => match l with [] => false | _ :: _ => true end
  | PyRef _ => true
  end.

(** Exception classes: the builtins the code raises or meets, the library's
    own [EmbeddingError] (Helpers/Errors.py), the three exceptions imported
    from the provider SDK, any other class that derives from [Exception]
    ([OtherError]), and the classes that derive from [BaseException] without
    deriving from [Exception], such as [KeyboardInterrupt], [SystemExit]
    and [GeneratorExit] ([BaseExceptionOnly]). *)
Inductive exc_class : Type :=
  | ValueError
  | TypeError
  | AttributeError
  | KeyError
  | NotImplementedError
  | EmbeddingError
  | AuthenticationError
  | APIError
  | RateLimitError
  | OtherError (name : string)
  | BaseExceptionOnly (name : string).

(** An exception instance: class, [str(e)], and [__cause__] as set by
    [raise ... from e]. *)
Inductive pyexc : Type :=
  | Exc (cls : exc_class) (msg : string) (cause : option pyexc).

Definition exc_cls (e : pyexc) : exc_class := let 'Exc c _ _ := e in c.
Definition exc_str (e : pyexc) : string := let 'Exc _ m _ := e in m.

Definition is_AuthenticationError (e : pyexc) : bool :=
  match exc_cls e with AuthenticationError => true | _ => false end.

(** [isinstance(e, Exception)]: what a clause [except Exception] catches. *)
Definition is_Exception (e : pyexc) : bool :=
  match exc_cls e with BaseExceptionOnly _ => false | _ => true end.

Inductive pyres (A : Type) : Type :=
  | Ok (a : A)
  | Raise (e : pyexc).
Arguments Ok {A} a.
Arguments Raise {A} e.

(** ** The provider boundary *)

Inductive Client : Type := ClientHandle (id : nat).

Record Message : Type := { role : string; content : pyval }.

(** The keyword arguments of [client.chat.completions.create]. *)
Record Request : Type := {
  req_model : pyval;
  req_messages : list Message;
  req_max_tokens : Z;
  req_kwargs : gmap string pyval
}.

Record Choice : Type := { message_content : pyval }.
Record Response : Type := { choices : list Choice; usage : pyval }.

(** ** Retriever objects

    [BaseRetriever] defines [retrieve] only (and raises
    [NotImplementedError] there); [embed] and [has_embedding] exist only
    where a concrete class defines them.  A class therefore lists the
    methods it defines itself; a method acts on the private state of the
    object and returns a result and the new private state. *)
Record pyclass : Type := {
  cls_name : string;
  cls_is_BaseRetriever : bool;
  cls_retrieve : option (string -> pyval -> pyres pyval * pyval);
  cls_embed : option (Client -> pyval -> pyres (gmap string pyval) * pyval);
  cls_has_embedding : option (pyval -> pyres pyval * pyval)
}.

Record pyobject : Type := { ob_class : pyclass; ob_state : pyval }.

(** BaseRetriever.retrieve *)
Definition BaseRetriever_retrieve (query : string) (st : pyval)
  : pyres pyval * pyval :=
  (Raise (Exc NotImplementedError "Subclasses must implement this method." None), st).

(** Attribute lookup of [retrieve] along the class hierarchy: the class's
    own definition, else the one inherited from [BaseRetriever]. *)
Definition resolve_retrieve (c : pyclass)
  : option (string -> pyval -> pyres pyval * pyval) :=
  match cls_retrieve c with
  | Some f => Some f
  | None => if cls_is_BaseRetriever c then Some BaseRetriever_retrieve else None
  end.

(** ** Effects: trace, environment, state *)

Inductive event : Type :=
  | EvOpenAI (api_key : pyval) (kwargs : gmap string pyval)
  | EvModelsList (c : Client)
  | EvChatCreate (c : Client) (req : Request)
  | EvRetrieve (a : addr) (query : string)
  | EvEmbed (a : addr) (c : Client)
  | EvHasEmbedding (a : addr).

(** What the wrapper cannot see: the process environment and the provider,
    whose answers may depend on everything that happened before. *)
Record Env : Type := {
  environ : gmap string string;
  OpenAI : list event -> pyval -> gmap string pyval -> pyres Client;
  models_list : list event -> Client -> pyres (list string);
  chat_completions_create : list event -> Client -> Request -> pyres Response
}.

(** The attributes of an [OpenAILLM] instance; [None] means the attribute is
    not bound (so [hasattr] is false), [Some PyNone] that it is bound to
    Python's [None].  [models] holds the ids of [self.models.data]. *)
Record OpenAILLM : Type := {
  client : option Client;
  models : option (list string);
  model_name : option string;
  model_version : option pyval;
  system_prompt : option pyval;
  retriever : option pyval
}.

(** The object as [__init__] receives it: no instance attribute yet. *)
Definition fresh : OpenAILLM :=
  {| client := None; models := None; model_name := None;
     model_version := None; system_prompt := None; retriever := None |}.

Record state : Type := {
  self : OpenAILLM;
  heap : gmap addr pyobject;
  trace : list event
}.

Definition with_self (o : OpenAILLM) (s : state) : state :=
  {| self := o; heap := heap s; trace := trace s |}.
Definition with_heap (h : gmap addr pyobject) (s : state) : state :=
  {| self := self s; heap := h; trace := trace s |}.
Definition log (ev : event) (s : state) : state :=
  {| self := self s; heap := heap s; trace := trace s ++ [ev] |}.

(** ** A state and exception monad *)

Definition M (A : Type) : Type := state -> pyres A * state.

Definition ret {A} (a : A) : M A := fun s => (Ok a, s).
Definition raise {A} (e : pyexc) : M A := fun s => (Raise e, s).
Definition bind {A B} (m : M A) (k : A -> M B) : M B :=
  fun s => match m s with
           | (Ok a, s') => k a s'
           | (Raise e, s') => (Raise e, s')
           end.

Notation "'do' x <- m ; k" := (bind m (fun x => k))
  (at level 10, x name, m at level 100, k at level 200,
   format "'[v' 'do'  x  <-  m ; '/' k ']'").
Notation "'run' m ; k" := (bind m (fun _ => k))
  (at level 10, m at level 100, k at level 200,
   format "'[v' 'run'  m ; '/' k ']'").

(** [try: body except <handler's classes> as e: ...]; the handler answers
    [None] for an exception its clause does not match. *)
Definition try_except {A} (body : M A) (handler : pyexc -> option (M A)) : M A :=
  fun s => match body s with
           | (Ok a, s') => (Ok a, s')
           | (Raise e, s') =>
               match handler e with
               | Some h => h s'
               | None => (Raise e, s')
               end
           end.

Definition new_exc (c : exc_class) (msg : string) : pyexc := Exc c msg None.

Definition no_attribute (ty name : string) : pyexc :=
  new_exc AttributeError ("'" +:+ ty +:+ "' object has no attribute '" +:+ name +:+ "'").

(** [self.<name>] *)
Definition getattr {A} (name : string) (proj : OpenAILLM -> option A) : M A :=
  fun s => match proj (self s) with
           | Some a => (Ok a, s)
           | None => (Raise (no_attribute "OpenAILLM" name), s)
           end.

(** [hasattr(self, '<name>')] *)
Definition hasattr {A} (proj : OpenAILLM -> option A) : M bool :=
  fun s => (Ok (bool_decide (is_Some (proj (self s)))), s).

Definition set_client (c : Client) : M unit := fun s =>
  (Ok tt, with_self {| client := Some c; models := models (self s);
                       model_name := model_name (self s);
                       model_version := model_version (self s);
                       system_prompt := system_prompt (self s);
                       retriever := retriever (self s) |} s).
Definition set_models (ms : list string) : M unit := fun s =>
  (Ok tt, with_self {| client := client (self s); models := Some ms;
                       model_name := model_name (self s);
                       model_version := model_version (self s);
                       system_prompt := system_prompt (self s);
                       retriever := retriever (self s) |} s).
Definition set_model_name (n : string) : M unit := fun s =>
  (Ok tt, with_self {| client := client (self s); models := models (self s);
                       model_name := Some n;
                       model_version := model_version (self s);
                       system_prompt := system_prompt (self s);
                       retriever := retriever (self s) |} s).
Definition set_model_version (v : pyval) : M unit := fun s =>
  (Ok tt, with_self {| client := client (self s); models := models (self s);
                       model_name := model_name (self s);
                       model_version := Some v;
                       system_prompt := system_prompt (self s);
                       retriever := retriever (self s) |} s).
Definition set_system_prompt (v : pyval) : M unit := fun s =>
  (Ok tt, with_self {| client := client (self s); models := models (self s);
                       model_name := model_name (self s);
                       model_version := model_version (self s);
                       system_prompt := Some v;
                       retriever := retriever (self s) |} s).
Definition set_retriever (v : pyval) : M unit := fun s =>
  (Ok tt, with_self {| client := client (self s); models := models (self s);
                       model_name := model_name (self s);
                       model_version := model_version (self s);
                       system_prompt := system_prompt (self s);
                       retriever := Some v |} s).

(** [type(v).__name__] *)
Definition type_name (h : gmap addr pyobject) (v : pyval) : string :=
  match v with
  | PyNone => "NoneType"
  | PyBool _ => "bool"
  | PyInt _ => "int"
  | PyStr _ => "str"
  | PyList _ => "list"
  | PyRef a => match h !! a with
               | Some o => cls_name (ob_class o)
               | None => "object"
               end
  end.

(** [isinstance(v, BaseRetriever)] *)
Definition isinstance_BaseRetriever (h : gmap addr pyobject) (v : pyval) : bool :=
  match v with
  | PyRef a => match h !! a with
               | Some o => cls_is_BaseRetriever (ob_class o)
               | None => false
               end
  | _ => false
  end.

(** [v.<name>(args)]: look the method up on the object [v] refers to
    ([AttributeError] when [v] is no object with such a method), evaluate
    the arguments, record the call, run the method on the object's private
    state and store the new private state. *)
Definition invoke {A X} (v : pyval) (name : string)
    (sel : pyclass -> option (X -> pyval -> pyres A * pyval))
    (args : M X) (ev : addr -> X -> event) : M A :=
  fun s =>
    match v with
    | PyRef a =>
        match heap s !! a with
        | Some o =>
            match sel (ob_class o) with
            | Some f =>
                match args s with
                | (Ok x, s1) =>
                    let '(r, st') := f x (ob_state o) in
                    (r, with_heap
                          (<[a := {| ob_class := ob_class o; ob_state := st' |}]> (heap s1))
                          (log (ev a x) s1))
                | (Raise e, s1) => (Raise e, s1)
                end
            | None => (Raise (no_attribute (type_name (heap s) v) name), s)
            end
        | None => (Raise (no_attribute (type_name (heap s) v) name), s)
        end
    | _ => (Raise (no_attribute (type_name (heap s) v) name), s)
    end.

(** Python dictionaries with string keys ([**kwargs]). *)
Definition dict_in (k : string) (d : gmap string pyval) : bool :=
  bool_decide (is_Some (d !! k)).
Definition dict_get (d : gmap string pyval) (k : string) (dflt : pyval) : pyval :=
  default dflt (d !! k).

(** [response['data']] *)
Definition subscript (d : gmap string pyval) (k : string) : M pyval :=
  match d !! k with
  | Some v => ret v
  | None => raise (new_exc KeyError ("'" +:+ k +:+ "'"))
  end.

(** The dictionaries the three public methods return. *)
Record ConfigureResponse : Type := {
  cfg_status : bool;
  cfg_message : string;
  cfg_model_version : pyval;
  cfg_retriever : string
}.

Record EmbedResponse : Type := {
  emb_status : bool;
  emb_message : string;
  emb_embeddings : pyval;
  emb_model : string
}.

Record GenerateResponse : Type := {
  gen_status : bool;
  gen_message : string;
  gen_choices : list pyval;
  gen_model : string;
  gen_usage : pyval
}.

(** ** class OpenAILLM(BaseLLM) *)

Section OpenAILLM.

Context (env : Env).

(** [os.environ.get(name)] *)
Definition environ_get (name : string) : pyval :=
  match environ env !! name with
  | Some v => PyStr v
  | None => PyNone
  end.

(** [OpenAI(api_key=API_KEY, **kwargs)]: a key [api_key] inside [kwargs]
    collides with the explicit keyword, which the interpreter refuses with
    [TypeError] before the constructor runs (its message, shortened here,
    starts with the name of the callee). *)
Definition new_OpenAI (API_KEY : pyval) (kwargs : gmap string pyval) : M Client :=
  if dict_in "api_key" kwargs
  then raise (new_exc TypeError "got multiple values for keyword argument 'api_key'")
  else fun s => (OpenAI env (trace s) API_KEY kwargs, log (EvOpenAI API_KEY kwargs) s).

(** [client.models.list()] *)
Definition client_models_list (c : Client) : M (list string) :=
  fun s => (models_list env (trace s) c, log (EvModelsList c) s).

(** [client.chat.completions.create(model=..., messages=..., max_tokens=...,
    **kwargs)]: again a key of [kwargs] equal to one of the explicit
    keywords is a [TypeError], raised once the explicit arguments have been
    evaluated and before the call is made (the interpreter's message, left
    out here, names the callee and the first colliding key of [kwargs]). *)
Definition chat_create (c : Client) (model : pyval) (messages : list Message)
    (max_tokens : Z) (kwargs : gmap string pyval) : M Response :=
  if dict_in "model" kwargs || dict_in "messages" kwargs || dict_in "max_tokens" kwargs
  then raise (new_exc TypeError "got multiple values for keyword argument")
  else fun s =>
         let req := {| req_model := model; req_messages := messages;
                       req_max_tokens := max_tokens; req_kwargs := kwargs |} in
         (chat_completions_create env (trace s) c req, log (EvChatCreate c req) s).

(** The credential [__init__] resolves: the environment variable unless
    [api_key] is among the keyword arguments. *)
Definition resolve_API_KEY (kwargs : gmap string pyval) : pyval :=
  if negb (dict_in "api_key" kwargs)
  then environ_get "OPENAI_API_KEY"
  else dict_get kwargs "api_key" PyNone.

Definition __init__ (name : string) (kwargs : gmap string pyval) : M unit :=
  let API_KEY := resolve_API_KEY kwargs in
  if negb (truthy API_KEY)
  then raise (new_exc ValueError "OPENAI_API_KEY environment variable is not set.")
  else
    do cm <- try_except
            (do c <- new_OpenAI API_KEY kwargs;
             do ms <- client_models_list c;
             ret (c, ms))
            (fun e =>
               if is_AuthenticationError e
               then Some (raise (Exc ValueError "Invalid OpenAI API key provided." (Some e)))
               else None);
    run set_client (fst cm);
    run set_models (snd cm);
    run set_model_name name;
    run set_model_version PyNone;
    run set_system_prompt PyNone;
    set_retriever PyNone.

Definition _check_client : M unit :=
  do hc <- hasattr client;
  do hm <- hasattr models;
  if negb hc && negb hm
  then raise (new_exc ValueError "OpenAI client is not initialized.")
  else ret tt.

Definition _check_retriever : M unit :=
  do hr <- hasattr retriever;
  if negb hr
  then raise (new_exc ValueError
                "Retriever is not set. Please configure the retriever before embedding.")
  else ret tt.

Definition _check_embeddings : M unit :=
  run _check_retriever;
  do r <- getattr "retriever" retriever;
  do v <- invoke r "has_embedding" (fun k => (fun f (_ : unit) => f) <$> cls_has_embedding k)
          (ret tt) (fun a _ => EvHasEmbedding a);
  if negb (truthy v)
  then raise (new_exc EmbeddingError
                "Embeddings have not been generated. Please call the embed() method first.")
  else ret tt.

(** The parameters [model_version], [system_prompt] and [retriever] are
    written [mv], [sp] and [rt], the long names being those of the
    attributes. *)
Definition configure (mv : string) (sp : pyval) (rt : pyval) : M ConfigureResponse :=
  run _check_client;
  if negb (truthy (PyStr mv))
  then raise (new_exc ValueError "Model version must be specified.")
  else
    do ms <- getattr "models" models;
    if negb (bool_decide (mv ∈ ms))
    then raise (new_exc ValueError
                  ("Model version '" +:+ mv +:+ "' is not available as an OpenAI models."))
    else
      run set_model_version (PyStr mv);
      run set_system_prompt sp;
      do isinst <- (fun s => (Ok (isinstance_BaseRetriever (heap s) rt), s));
      if (match rt with PyNone => false | _ => true end) && negb isinst
      then raise (new_exc TypeError "Retriever must be an instance of BaseRetriever.")
      else
        run set_retriever rt;
        do n <- getattr "model_name" model_name;
        do v <- getattr "model_version" model_version;
        do r <- getattr "retriever" retriever;
        do cn <- (fun s => (Ok (type_name (heap s) r), s));
        ret {| cfg_status := true;
               cfg_message := "OpenAI model '" +:+ n +:+ "' configured successfully.";
               cfg_model_version := v;
               cfg_retriever := cn |}.

Definition embed : M EmbedResponse :=
  run _check_client;
  run _check_retriever;
  try_except
    (do r <- getattr "retriever" retriever;
     do response <- invoke r "embed" cls_embed (getattr "client" client) EvEmbed;
     do data <- subscript response "data";
     do n <- getattr "model_name" model_name;
     ret {| emb_status := true;
            emb_message := "Embeddings generated successfully.";
            emb_embeddings := data;
            emb_model := n |})
    (fun e =>
       if is_Exception e
       then Some (raise (new_exc EmbeddingError
                           ("Failed to generate embeddings: " +:+ exc_str e)))
       else None).

(** The content of the system message, as both branches of [generate]
    compute it. *)
Definition system_content (kwargs : gmap string pyval) : M pyval :=
  if negb (dict_in "system_prompt" kwargs)
  then getattr "system_prompt" system_prompt
  else ret (dict_get kwargs "system_prompt" (PyStr "You are a helpful assistant.")).

Definition generate (user_prompt : string) (is_rag : bool) (max_tokens : Z)
    (kwargs : gmap string pyval) : M GenerateResponse :=
  run _check_client;
  do response <-
    (if is_rag
     then
       run _check_retriever;
       run _check_embeddings;
       do c <- getattr "client" client;
       do mv <- getattr "model_version" model_version;
       do sys <- system_content kwargs;
       do r <- getattr "retriever" retriever;
       do ctx <- invoke r "retrieve" resolve_retrieve (ret user_prompt) EvRetrieve;
       chat_create c mv
         [ {| role := "system"; content := sys |};
           {| role := "user"; content := PyStr user_prompt |};
           {| role := "assistant"; content := ctx |} ]
         max_tokens kwargs
     else
       do c <- getattr "client" client;
       do mv <- getattr "model_version" model_version;
       do sys <- system_content kwargs;
       chat_create c mv
         [ {| role := "system"; content := sys |};
           {| role := "user"; content := PyStr user_prompt |} ]
         max_tokens kwargs);
  do n <- getattr "model_name" model_name;
  ret {| gen_status := true;
         gen_message := "Response generated successfully.";
         gen_choices := map message_content (choices response);
         gen_model := n;
         gen_usage := usage response |}.

End OpenAILLM.

(** Running a method on an instance. *)
Definition mk_state (o : OpenAILLM) (h : gmap addr pyobject) (t : list event) : state :=
  {| self := o; heap := h; trace := t |}.

(** ** A concrete scenario

    The provider of the test suite: it accepts the key and lists the models
    [gpt-3.5-turbo] and [gpt-4]; a chat request is answered with two
    completions. *)
Module Scenario.

Definition two_choices : Response :=
  {| choices := [ {| message_content := PyStr "a" |}; {| message_content := PyStr "b" |} ];
     usage := PyInt 7 |}.

Definition env_ok : Env :=
  {| environ := {[ "OPENAI_API_KEY" := "test-key" ]};
     OpenAI := fun _ _ _ => Ok (ClientHandle 0);
     models_list := fun _ _ => Ok ["gpt-3.5-turbo"; "gpt-4"];
     chat_completions_create := fun _ _ _ => Ok two_choices |}.

(** The same provider refusing the key when the models are listed. *)
Definition env_rejecting : Env :=
  {| environ := {[ "OPENAI_API_KEY" := "bad-key" ]};
     OpenAI := fun _ _ _ => Ok (ClientHandle 0);
     models_list := fun _ _ =>
       Raise (new_exc AuthenticationError "Incorrect API key provided");
     chat_completions_create := fun _ _ _ => Ok two_choices |}.

(** No key anywhere. *)
Definition env_no_key : Env :=
  {| environ := ∅;
     OpenAI := fun _ _ _ => Ok (ClientHandle 0);
     models_list := fun _ _ => Ok ["gpt-3.5-turbo"; "gpt-4"];
     chat_completions_create := fun _ _ _ => Ok two_choices |}.

(** A retriever class deriving from [BaseRetriever]: its private state is
    the flag [has_embedding] reports, [embed] raises the flag. *)
Definition StubRetriever : pyclass :=
  {| cls_name := "StubRetriever";
     cls_is_BaseRetriever := true;
     cls_retrieve := Some (fun q st => (Ok (PyList [PyStr "doc"]), st));
     cls_embed := Some (fun _ _ => (Ok {[ "data" := PyList [PyInt 1] ]}, PyBool true));
     cls_has_embedding := Some (fun st => (Ok st, st)) |}.

Definition heap0 : gmap addr pyobject :=
  {[ 0%nat := {| ob_class := StubRetriever; ob_state := PyBool false |} ]}.
Definition heap1 : gmap addr pyobject :=
  {[ 0%nat := {| ob_class := StubRetriever; ob_state := PyBool true |} ]}.

(** The instance right after [OpenAILLM("test-model")]. *)
Definition constructed : OpenAILLM :=
  {| client := Some (ClientHandle 0);
     models := Some ["gpt-3.5-turbo"; "gpt-4"];
     model_name := Some "test-model";
     model_version := Some PyNone;
     system_prompt := Some PyNone;
     retriever := Some PyNone |}.

(** ... and after [configure("gpt-3.5-turbo", "sp", PyRef 0)]. *)
Definition configured : OpenAILLM :=
  {| client := Some (ClientHandle 0);
     models := Some ["gpt-3.5-turbo"; "gpt-4"];
     model_name := Some "test-model";
     model_version := Some (PyStr "gpt-3.5-turbo");
     system_prompt := Some (PyStr "sp");
     retriever := Some (PyRef 0) |}.

End Scenario.

(** ** Vocabulary of the statements *)

(** [inv I m]: the computation [m] keeps [I], whether it returns or
    raises. *)
Definition inv {A} (I : state → Prop) (m : M A) : Prop :=
  ∀ s r s', I s → m s = (r, s') → I s'.

(** An invariant that no call to a retriever and no provider request can
    break is kept by [embed] and by [generate]. *)
Definition stable_under_calls (I : state → Prop) : Prop :=
  (∀ s ev, I s → I (log ev s)) ∧ (∀ s h, I s → I (with_heap h s)).

(** An instance all of whose attributes are bound, as [__init__] leaves
    it. *)
Definition initialized (o : OpenAILLM) : Prop :=
  is_Some (client o) ∧ is_Some (models o) ∧ is_Some (model_name o) ∧
  is_Some (model_version o) ∧ is_Some (system_prompt o) ∧ is_Some (retriever o).

(** One step in the life of an instance: a call of a public method with any
    arguments, returning or raising, or the caller creating or changing
    objects (retrievers) between two calls. *)
Inductive call (env : Env) : state → state → Prop :=
  | call_configure mv sp rt s r s' :
      configure mv sp rt s = (r, s') → call env s s'
  | call_embed s r s' :
      embed s = (r, s') → call env s s'
  | call_generate up rag mt kw s r s' :
      generate env up rag mt kw s = (r, s') → call env s s'
  | call_outside s h :
      call env s (with_heap h s).

(** No key of [kwargs] collides with a keyword [generate] passes itself. *)
Definition no_clash (kw : gmap string pyval) : Prop :=
  kw !! "model" = None ∧ kw !! "messages" = None ∧ kw !! "max_tokens" = None.

(** The provider refuses the key [key] with the exception [e], either when
    the client is built or when the models are listed. *)
Definition rejects (env : Env) (t : list event) (key : pyval)
    (kw : gmap string pyval) (e : pyexc) : Prop :=
  is_AuthenticationError e = true ∧
  (OpenAI env t key kw = Raise e ∨
   ∃ c, OpenAI env t key kw = Ok c ∧
        models_list env (t ++ [EvOpenAI key kw]) c = Raise e).

(** The instance after the two assignments [configure] makes before it
    looks at the retriever, and after all three. *)
Definition assign_version_prompt (mv : string) (sp : pyval) (o : OpenAILLM) : OpenAILLM :=
  {| client := client o; models := models o; model_name := model_name o;
     model_version := Some (PyStr mv); system_prompt := Some sp;
     retriever := retriever o |}.

Definition assign_all (mv : string) (sp rt : pyval) (o : OpenAILLM) : OpenAILLM :=
  {| client := client o; models := models o; model_name := model_name o;
     model_version := Some (PyStr mv); system_prompt := Some sp;
     retriever := Some rt |}.

Definition is_not_None (v : pyval) : bool :=
  match v with PyNone => false | _ => true end.

(** The message [msg] names [x]: [x] occurs in it. *)
Definition names (msg x : string) : Prop := ∃ pre post, msg = pre +:+ x +:+ post.

(** The all-or-nothing reading of [configure]: a failing call changes none
    of the three attributes. *)
Definition configure_atomic : Prop :=
  ∀ mv sp rt s e s',
    initialized (self s) →
    configure mv sp rt s = (Raise e, s') →
    model_version (self s') = model_version (self s) ∧
    system_prompt (self s') = system_prompt (self s) ∧
    retriever (self s') = retriever (self s).

(** The content of the system message once the stored prompt is known to be
    bound to [stored]. *)
Definition chosen_system_prompt (kw : gmap string pyval) (stored : pyval) : pyval :=
  if negb (dict_in "system_prompt" kw)
  then stored
  else dict_get kw "system_prompt" (PyStr "You are a helpful assistant.").

Definition system_message (v : pyval) : Message := {| role := "system"; content := v |}.
Definition user_message (p : string) : Message := {| role := "user"; content := PyStr p |}.
Definition assistant_message (v : pyval) : Message := {| role := "assistant"; content := v |}.

(** What [generate] returns for the provider's response. *)
Definition normalize (n : string) (resp : Response) : GenerateResponse :=
  {| gen_status := true;
     gen_message := "Response generated successfully.";
     gen_choices := map message_content (choices resp);
     gen_model := n;
     gen_usage := usage resp |}.

(** The state after a call of a method of the object at [a] that leaves
    the private state [st']. *)
Definition after_call (a : addr) (o : pyobject) (st' : pyval) (ev : event) (s : state)
  : state :=
  with_heap (<[a := {| ob_class := ob_class o; ob_state := st' |}]> (heap s)) (log ev s).

(** A request that carries [v] as the content of its leading system message
    and [kw] as its extra options. *)
Definition forwards (kw : gmap string pyval) (v : pyval) (ev : event) : Prop :=
  match ev with
  | EvChatCreate _ req =>
      head (req_messages req) = Some (system_message v) ∧ req_kwargs req = kw
  | _ => True
  end.

(** The trace of [s] extends [t0] by events that satisfy [P]. *)
Definition extends_with (P : event → Prop) (t0 : list event) (s : state) : Prop :=
  ∃ new, trace s = (t0 ++ new)%list ∧ Forall P new.

(** The retriever of [s] is the object at [a]; it reports embeddings and
    answers [retrieve(up)] with [ctx]. *)
Definition retrieves (s : state) (up : string) (a : addr) (ctx : pyval) : Prop :=
  ∃ o hf b st1 rf st2,
    retriever (self s) = Some (PyRef a) ∧
    heap s !! a = Some o ∧
    cls_has_embedding (ob_class o) = Some hf ∧
    hf (ob_state o) = (Ok b, st1) ∧
    truthy b = true ∧
    resolve_retrieve (ob_class o) = Some rf ∧
    rf up st1 = (Ok ctx, st2).

(** The message list of a request of [generate]: system and user message,
    followed in retrieval mode by one assistant message. *)
Definition request_shape (up : string) (rag : bool) (ev : event) : Prop :=
  match ev with
  | EvChatCreate _ req =>
      ∃ sys,
        if rag
        then ∃ ctx, req_messages req
                    = [system_message sys; user_message up; assistant_message ctx]
        else req_messages req = [system_message sys; user_message up]
  | _ => True
  end.

(** ** Further scenarios and vocabulary *)

(** The class [BaseRetriever] itself (Retrievers/BaseRetriever.py): it
    defines [retrieve], which [resolve_retrieve] finds, and nothing else. *)
Definition BaseRetriever : pyclass :=
  {| cls_name := "BaseRetriever";
     cls_is_BaseRetriever := true;
     cls_retrieve := None;
     cls_embed := None;
     cls_has_embedding := None |}.

Module Scenario2.

(** A provider that is overloaded when the models are listed. *)
Definition env_rate_limited : Env :=
  {| environ := {[ "OPENAI_API_KEY" := "test-key" ]};
     OpenAI := fun _ _ _ => Ok (ClientHandle 0);
     models_list := fun _ _ => Raise (new_exc RateLimitError "Rate limit reached");
     chat_completions_create := fun _ _ _ => Raise (new_exc RateLimitError "Rate limit reached") |}.

(** A retriever whose [embed] fails, and leaves a mark in its state. *)
Definition FailingRetriever : pyclass :=
  {| cls_name := "FailingRetriever";
     cls_is_BaseRetriever := true;
     cls_retrieve := None;
     cls_embed := Some (fun _ _ => (Raise (new_exc (OtherError "ConnectionError") "index unreachable"),
                                   PyStr "tried"));
     cls_has_embedding := Some (fun st => (Ok (PyBool true), st)) |}.

(** A retriever whose [embed] is interrupted from the keyboard. *)
Definition InterruptedRetriever : pyclass :=
  {| cls_name := "InterruptedRetriever";
     cls_is_BaseRetriever := true;
     cls_retrieve := None;
     cls_embed := Some (fun _ st => (Raise (new_exc (BaseExceptionOnly "KeyboardInterrupt") "stop"),
                                    st));
     cls_has_embedding := Some (fun st => (Ok st, st)) |}.

(** A retriever whose [embed] answers without the key [data]. *)
Definition NoDataRetriever : pyclass :=
  {| cls_name := "NoDataRetriever";
     cls_is_BaseRetriever := true;
     cls_retrieve := None;
     cls_embed := Some (fun _ _ => (Ok {[ "vectors" := PyList [] ]}, PyBool true));
     cls_has_embedding := Some (fun st => (Ok st, st)) |}.

Definition heap_of (k : pyclass) (st : pyval) : gmap addr pyobject :=
  {[ 0%nat := {| ob_class := k; ob_state := st |} ]}.

(** The configured instance after [generate("hi", is_rag=True,
    max_tokens=10)] with embeddings present, and after [embed()]. *)
Definition rag_request : Request :=
  {| req_model := PyStr "gpt-3.5-turbo";
     req_messages := [ {| role := "system"; content := PyStr "sp" |};
                       {| role := "user"; content := PyStr "hi" |};
                       {| role := "assistant"; content := PyList [PyStr "doc"] |} ];
     req_max_tokens := 10;
     req_kwargs := ∅ |}.

Definition after_rag : state :=
  mk_state Scenario.configured Scenario.heap1
    [EvHasEmbedding 0; EvRetrieve 0 "hi"; EvChatCreate (ClientHandle 0) rag_request].

Definition after_embed : state :=
  mk_state Scenario.configured Scenario.heap1 [EvEmbed 0 (ClientHandle 0)].

(** ... and after an [embed()] that the retriever's [KeyboardInterrupt]
    ended. *)
Definition after_interrupt : state :=
  mk_state Scenario.configured (heap_of InterruptedRetriever PyNone)
    [EvEmbed 0 (ClientHandle 0)].

End Scenario2.

(** The instance [__init__] builds from the client [c] and the model ids
    [ms]. *)
Definition constructed_with (c : Client) (ms : list string) (name : string) : OpenAILLM :=
  {| client := Some c; models := Some ms; model_name := Some name;
     model_version := Some PyNone; system_prompt := Some PyNone;
     retriever := Some PyNone |}.

(** The exception [__init__] raises in place of the provider's [e]. *)
Definition init_reraise (e : pyexc) : pyexc :=
  if is_AuthenticationError e
  then Exc ValueError "Invalid OpenAI API key provided." (Some e)
  else e.

(** What [configure] never touches: the client, the model list, the name,
    the objects and the trace. *)
Definition same_outside_configuration (s s' : state) : Prop :=
  client (self s') = client (self s) ∧
  models (self s') = models (self s) ∧
  model_name (self s') = model_name (self s) ∧
  heap s' = heap s ∧
  trace s' = trace s.

(** The stored configuration is one [configure] could have accepted: the
    model version is [None] or a listed, non-empty id, and the retriever is
    [None] or an object. *)
Definition well_configured (o : OpenAILLM) : Prop :=
  ∃ ms, models o = Some ms ∧
    (model_version o = Some PyNone ∨
     ∃ mv, model_version o = Some (PyStr mv) ∧ mv ≠ "" ∧ mv ∈ ms) ∧
    (retriever o = Some PyNone ∨ ∃ a, retriever o = Some (PyRef a)).

(** What [configure] returns when it accepts its arguments. *)
Definition acknowledgment (n mv : string) (h : gmap addr pyobject) (rt : pyval)
  : ConfigureResponse :=
  {| cfg_status := true;
     cfg_message := "OpenAI model '" +:+ n +:+ "' configured successfully.";
     cfg_model_version := PyStr mv;
     cfg_retriever := type_name h rt |}.

(** A computation that changes nothing, whether it returns or raises. *)
Definition pure {A} (m : M A) : Prop := ∀ s r s', m s = (r, s') → s' = s.

(** A computation that never returns. *)
Definition never_returns {A} (m : M A) : Prop := ∀ s a s', m s ≠ (Ok a, s').

(** An extra option of [generate] collides with a keyword it passes
    itself. *)
Definition clash (kw : gmap string pyval) : Prop :=
  is_Some (kw !! "model") ∨ is_Some (kw !! "messages") ∨ is_Some (kw !! "max_tokens").

Definition is_request (ev : event) : Prop :=
  match ev with EvChatCreate _ _ => True | _ => False end.

Definition is_embed_call (ev : event) : Prop :=
  match ev with EvEmbed _ _ => True | _ => False end.

(** ** The first wrapper: class OpenAI(BaseLLM) of [Model/OpenAI.py]

    It keeps the key in the module attribute [openai.api_key] and completes
    prompts through [openai.Completion.create].  Its [__init__] does not
    call the [__init__] of its base class (which would assign [model_name]
    and [kwargs]), so the attributes of an instance are whatever the caller
    assigns from outside. *)
Module Legacy.

(** A Python float, passed on and never computed with: its IEEE 754
    binary64 bit pattern. *)
Inductive pyfloat : Type := PyFloat (bits : Z).

(** The keyword arguments of [openai.Completion.create]. *)
Record CompletionRequest : Type := {
  creq_model : pyval;
  creq_prompt : string;
  creq_max_tokens : Z;
  creq_temperature : pyfloat;
  creq_top_p : pyfloat;
  creq_stop : option (list string);
  creq_kwargs : gmap string pyval
}.

Record Usage : Type := {
  prompt_tokens : pyval;
  completion_tokens : pyval;
  total_tokens : pyval
}.

Record CompletionChoice : Type := { text : pyval }.

Record Completion : Type := {
  resp_id : pyval;
  resp_object : pyval;
  resp_created : pyval;
  resp_model : pyval;
  resp_choices : list CompletionChoice;
  resp_usage : Usage
}.

(** The dictionary [generate] returns. *)
Record ModelResponse : Type := {
  mr_id : pyval;
  mr_object : pyval;
  mr_created : pyval;
  mr_model : pyval;
  mr_choices : list pyval;
  mr_usage : Usage
}.

(** The process environment and the provider library: looking up
    [openai.Completion.create] gives the callable or raises, and the
    callable answers a request given the requests made before. *)
Record Env : Type := {
  environ : gmap string string;
  openai_Completion_create :
    pyres (list CompletionRequest → CompletionRequest → pyres Completion)
}.

(** The module attribute [openai.api_key], the attribute [model_name] of
    the instance ([None]: not bound), and the requests made. *)
Record state : Type := {
  openai_api_key : pyval;
  model_name : option pyval;
  requests : list CompletionRequest
}.

Section OpenAI.

Context (env : Env).

(** [os.getenv(name, default)] *)
Definition os_getenv (name : string) (dflt : pyval) : pyval :=
  match environ env !! name with
  | Some v => PyStr v
  | None => dflt
  end.

Definition __init__ (name : string) (kwargs : gmap string pyval) (s : state)
  : pyres unit * state :=
  let s1 := {| openai_api_key := os_getenv "OPENAI_API_KEY" (dict_get kwargs "api_key" (PyStr ""));
               model_name := model_name s;
               requests := requests s |} in
  if negb (truthy (openai_api_key s1))
  then (Raise (new_exc ValueError
                 "OpenAI API key is required. Set it in the environment variable OPENAI_API_KEY or pass it as a parameter."),
        s1)
  else (Ok tt, s1).

(** The callee is looked up first, then the arguments are evaluated from
    left to right, then [**kwargs] is merged in (a key equal to an explicit
    keyword is a [TypeError]), then the call is made. *)
Definition generate (prompt : string) (max_tokens : Z) (temperature top_p : pyfloat)
    (stop : option (list string)) (kwargs : gmap string pyval) (s : state)
  : pyres ModelResponse * state :=
  match openai_Completion_create env with
  | Raise e => (Raise e, s)
  | Ok create =>
      match model_name s with
      | None => (Raise (no_attribute "OpenAI" "model_name"), s)
      | Some mn =>
          if dict_in "model" kwargs || dict_in "prompt" kwargs
             || dict_in "max_tokens" kwargs || dict_in "temperature" kwargs
             || dict_in "top_p" kwargs || dict_in "stop" kwargs
          then (Raise (new_exc TypeError "got multiple values for keyword argument"), s)
          else
            let req := {| creq_model := mn; creq_prompt := prompt;
                          creq_max_tokens := max_tokens;
                          creq_temperature := temperature; creq_top_p := top_p;
                          creq_stop := stop; creq_kwargs := kwargs |} in
            let s1 := {| openai_api_key := openai_api_key s;
                         model_name := model_name s;
                         requests := requests s ++ [req] |} in
            match create (requests s) req with
            | Raise e => (Raise e, s1)
            | Ok response =>
                (Ok {| mr_id := resp_id response;
                       mr_object := resp_object response;
                       mr_created := resp_created response;
                       mr_model := resp_model response;
                       mr_choices := map text (resp_choices response);
                       mr_usage := {| prompt_tokens := prompt_tokens (resp_usage response);
                                      completion_tokens := completion_tokens (resp_usage response);
                                      total_tokens := total_tokens (resp_usage response) |} |},
                 s1)
            end
      end
  end.

End OpenAI.

(** A library that answers every request, and an instance nobody has
    touched. *)
Definition answering : Env :=
  {| environ := {[ "OPENAI_API_KEY" := "" ]};
     openai_Completion_create :=
       Ok (fun _ _ => Ok {| resp_id := PyStr "cmpl-1"; resp_object := PyStr "text_completion";
                            resp_created := PyInt 0; resp_model := PyStr "m";
                            resp_choices := [ {| text := PyStr "a" |} ];
                            resp_usage := {| prompt_tokens := PyInt 1;
                                             completion_tokens := PyInt 1;
                                             total_tokens := PyInt 2 |} |}) |}.

Definition answering_with_key : Env :=
  {| environ := {[ "OPENAI_API_KEY" := "env-key" ]};
     openai_Completion_create := openai_Completion_create answering |}.

Definition untouched : state :=
  {| openai_api_key := PyStr "earlier-key"; model_name := None; requests := [] |}.

End Legacy.

(** * Properties *)

(** ** Proof tools *)

Ltac unfold_monad :=
  unfold _check_embeddings, _check_retriever, _check_client, system_content,
    chat_create, new_OpenAI, client_models_list, subscript, invoke, try_except,
    getattr, hasattr, set_client, set_models, set_model_name, set_model_version,
    set_system_prompt, set_retriever, bind, ret, raise in *.

(** ** Invariants of monadic code: the rules follow the constructs the
    methods are written with. *)

Section inv_rules.

Context (I : state → Prop).

Lemma inv_ret {A} (a : A) : inv I (ret a).
Proof. intros s r s' HI [= <- <-]. exact HI. Qed.

Lemma inv_raise {A} (e : pyexc) : inv I (raise (A:=A) e).
Proof. intros s r s' HI [= <- <-]. exact HI. Qed.

Lemma inv_bind {A B} (m : M A) (k : A → M B) :
  inv I m → (∀ a, inv I (k a)) → inv I (bind m k).
Proof.
  intros Hm Hk s r s' HI. unfold bind.
  destruct (m s) as [[a|e] s1] eqn:E; intros H.
  - eapply Hk; [eapply Hm; eauto | exact H].
  - injection H as <- <-. eapply Hm; eauto.
Qed.

Lemma inv_if {A} (b : bool) (m1 m2 : M A) :
  inv I m1 → inv I m2 → inv I (if b then m1 else m2).
Proof. destruct b; auto. Qed.

Lemma inv_try_except {A} (body : M A) (handler : pyexc → option (M A)) :
  inv I body → (∀ e h, handler e = Some h → inv I h) → inv I (try_except body handler).
Proof.
  intros Hb Hh s r s' HI. unfold try_except.
  destruct (body s) as [[a|e] s1] eqn:E.
  - intros [= <- <-]. eapply Hb; eauto.
  - destruct (handler e) as [h|] eqn:Eh.
    + intros H. eapply Hh; [exact Eh | eapply Hb; eauto | exact H].
    + intros [= <- <-]. eapply Hb; eauto.
Qed.

Lemma inv_getattr {A} name (proj : OpenAILLM → option A) : inv I (getattr name proj).
Proof.
  intros s r s' HI. unfold getattr. destruct (proj (self s)); intros [= <- <-]; exact HI.
Qed.

Lemma inv_hasattr {A} (proj : OpenAILLM → option A) : inv I (hasattr proj).
Proof. intros s r s' HI [= <- <-]. exact HI. Qed.

Lemma inv_subscript d k : inv I (subscript d k).
Proof. unfold subscript. destruct (d !! k); [apply inv_ret | apply inv_raise]. Qed.

Lemma inv_invoke {A X} v name
    (sel : pyclass → option (X → pyval → pyres A * pyval)) (args : M X) ev :
  inv I args →
  (∀ s a x h, I s → I (with_heap h (log (ev a x) s))) →
  inv I (invoke v name sel args ev).
Proof.
  intros Hargs Hstep s r s' HI. unfold invoke.
  destruct v as [| | | | |a]; try (intros [= <- <-]; exact HI).
  destruct (heap s !! a) as [o|]; [|intros [= <- <-]; exact HI].
  destruct (sel (ob_class o)) as [f|]; [|intros [= <- <-]; exact HI].
  destruct (args s) as [[x|e] s1] eqn:E.
  - destruct (f x (ob_state o)) as [r0 st']. intros [= <- <-].
    apply Hstep. eapply Hargs; eauto.
  - intros [= <- <-]. eapply Hargs; eauto.
Qed.

Lemma inv_chat_create env c model messages max_tokens kwargs :
  (∀ s, I s → I (log (EvChatCreate c {| req_model := model; req_messages := messages;
                                         req_max_tokens := max_tokens;
                                         req_kwargs := kwargs |}) s)) →
  inv I (chat_create env c model messages max_tokens kwargs).
Proof.
  intros Hstep. unfold chat_create. apply inv_if; [apply inv_raise|].
  intros s r s' HI [= <- <-]. auto.
Qed.

Lemma inv_check_client : inv I _check_client.
Proof.
  unfold _check_client.
  repeat (apply inv_bind; [apply inv_hasattr | intros ?]).
  apply inv_if; [apply inv_raise | apply inv_ret].
Qed.

Lemma inv_check_retriever : inv I _check_retriever.
Proof.
  unfold _check_retriever. apply inv_bind; [apply inv_hasattr | intros ?].
  apply inv_if; [apply inv_raise | apply inv_ret].
Qed.

End inv_rules.

Create HintDb inv.

#[global] Hint Resolve inv_ret inv_raise inv_getattr inv_hasattr inv_subscript
  inv_check_client inv_check_retriever : inv.

(** Apply the rules along the structure of a method body. *)
Ltac inv_step :=
  first [ solve [eauto with inv]
        | apply inv_chat_create
        | apply inv_invoke
        | apply inv_try_except; [| intros ? ? ?]
        | apply inv_bind; [| intros ?]
        | apply inv_if ].

(** ** What the methods leave alone *)

Lemma stable_invoke I : stable_under_calls I →
  ∀ ev s h, I s → I (with_heap h (log ev s)).
Proof. intros [Hl Hh] ev s h HI. apply Hh, Hl, HI. Qed.

Lemma inv_check_embeddings I : stable_under_calls I → inv I _check_embeddings.
Proof.
  intros HS. unfold _check_embeddings.
  repeat inv_step. intros; by apply stable_invoke.
Qed.

#[global] Hint Resolve inv_check_embeddings : inv.

Lemma inv_system_content I kw : inv I (system_content kw).
Proof. unfold system_content. repeat inv_step. Qed.

#[global] Hint Resolve inv_system_content : inv.

Lemma embed_inv I : stable_under_calls I → inv I embed.
Proof.
  intros HS. unfold embed. repeat inv_step.
  - intros; by apply stable_invoke.
  - destruct (is_Exception _); simplify_eq. auto with inv.
Qed.

Lemma generate_inv env I up rag mt kw :
  stable_under_calls I → inv I (generate env up rag mt kw).
Proof.
  intros HS. unfold generate. repeat inv_step.
  - intros; by apply stable_invoke.
  - intros; by apply HS.
  - intros; by apply HS.
Qed.

Lemma self_stable (o : OpenAILLM) : stable_under_calls (λ s, self s = o).
Proof. split; intros; assumption. Qed.

(** [embed] and [generate] never assign an attribute. *)
Lemma embed_self s r s' : embed s = (r, s') → self s' = self s.
Proof. intros H. by eapply (embed_inv _ (self_stable (self s))). Qed.

Lemma generate_self env up rag mt kw s r s' :
  generate env up rag mt kw s = (r, s') → self s' = self s.
Proof. intros H. by eapply (generate_inv env _ up rag mt kw (self_stable (self s))). Qed.

Lemma inv_setter I (f : state → state) :
  (∀ s, I s → I (f s)) → inv I (λ s, (Ok tt, f s)).
Proof. intros Hf s r s' HI [= <- <-]. auto. Qed.

Lemma inv_read {A} I (f : state → A) : inv I (λ s, (Ok (f s), s)).
Proof. intros s r s' HI [= <- <-]. auto. Qed.

(** [configure] only ever binds attributes. *)
Lemma configure_initialized mv sp rt :
  inv (λ s, initialized (self s)) (configure mv sp rt).
Proof.
  unfold configure. repeat inv_step; try apply inv_read;
    (apply inv_setter; unfold initialized; simpl; intros s (?&?&?&?&?&?); eauto 10).
Qed.

(** ** The life of an instance *)

Lemma call_initialized env s s' :
  call env s s' → initialized (self s) → initialized (self s').
Proof.
  destruct 1 as [mv sp rt s r s' H | s r s' H | up rag mt kw s r s' H | s h]; intros HI.
  - by eapply (configure_initialized mv sp rt s r s').
  - by rewrite (embed_self _ _ _ H).
  - by rewrite (generate_self _ _ _ _ _ _ _ _ H).
  - exact HI.
Qed.

Lemma calls_initialized env s s' :
  rtc (call env) s s' → initialized (self s) → initialized (self s').
Proof. induction 1; eauto using call_initialized. Qed.

Lemma check_client_initialized s :
  initialized (self s) → _check_client s = (Ok tt, s).
Proof.
  intros ([c Hc] & _). unfold _check_client, hasattr, bind, ret. simpl.
  rewrite Hc. reflexivity.
Qed.

(** What a returning [__init__] has assigned. *)
Lemma init_assigns env name kw s0 s :
  __init__ env name kw s0 = (Ok tt, s) →
  ∃ c ms, self s = {| client := Some c; models := Some ms; model_name := Some name;
                      model_version := Some PyNone; system_prompt := Some PyNone;
                      retriever := Some PyNone |}.
Proof.
  unfold __init__.
  destruct (negb (truthy _)); [intros [=]|].
  unfold bind at 1. 
  destruct (try_except _ _ s0) as [[[c ms]|e] s1]; [|intros [=]].
  unfold_monad. simpl. intros [= <-]. simpl. eauto.
Qed.

(** ** Dictionary membership *)

Lemma dict_in_None k (d : gmap string pyval) : d !! k = None → dict_in k d = false.
Proof. unfold dict_in. intros ->. reflexivity. Qed.

Lemma dict_in_Some k (d : gmap string pyval) v : d !! k = Some v → dict_in k d = true.
Proof. unfold dict_in. intros ->. reflexivity. Qed.

(** ** Construction *)

(** C10. After a returning [__init__] the attributes [client], [models] and
    [model_name] are bound and [model_version], [system_prompt] and
    [retriever] are [None]; and whatever is then called on the instance, in
    any order and with any outcome, [_check_client] passes: its error branch
    is never taken on a constructed instance. *)
Theorem constructed_instance_passes_check_client env name kw h t s :
  __init__ env name kw (mk_state fresh h t) = (Ok tt, s) →
  (∃ c ms, self s = {| client := Some c; models := Some ms; model_name := Some name;
                       model_version := Some PyNone; system_prompt := Some PyNone;
                       retriever := Some PyNone |}) ∧
  (∀ s', rtc (call env) s s' → _check_client s' = (Ok tt, s')).
Proof.
  intros Hinit. destruct (init_assigns _ _ _ _ _ Hinit) as (c & ms & Hs).
  split; [by exists c, ms|].
  intros s' Hcalls. apply check_client_initialized.
  apply (calls_initialized env s s' Hcalls).
  rewrite Hs. unfold initialized. simpl. eauto 10.
Qed.

Lemma constructed_instance_passes_check_client_witness :
  (∃ c ms, self (mk_state Scenario.constructed ∅
                   [EvOpenAI (PyStr "test-key") ∅; EvModelsList (ClientHandle 0)])
           = {| client := Some c; models := Some ms; model_name := Some "test-model";
                model_version := Some PyNone; system_prompt := Some PyNone;
                retriever := Some PyNone |}) ∧
  (∀ s', rtc (call Scenario.env_ok)
             (mk_state Scenario.constructed ∅
                [EvOpenAI (PyStr "test-key") ∅; EvModelsList (ClientHandle 0)]) s' →
         _check_client s' = (Ok tt, s')).
Proof.
  apply (constructed_instance_passes_check_client Scenario.env_ok "test-model" ∅ ∅ []).
  vm_compute. reflexivity.
Defined.

(** The credential is missing: neither source gives a true value. *)
Lemma init_missing_credential env name kw s :
  truthy (resolve_API_KEY env kw) = false →
  __init__ env name kw s
  = (Raise (new_exc ValueError "OPENAI_API_KEY environment variable is not set."), s).
Proof. unfold __init__. intros ->. reflexivity. Qed.

(** C3. When the provider refuses the resolved key, [__init__] raises a
    [ValueError] (with the provider's [AuthenticationError] as its cause):
    the very class it raises for a missing key, so the two failures are
    not of distinct kinds. *)
Theorem rejected_credential_raises_ValueError env name kw h t key e :
  kw !! "api_key" = None →
  environ env !! "OPENAI_API_KEY" = Some key →
  key ≠ "" →
  rejects env t (PyStr key) kw e →
  ∃ err s',
    __init__ env name kw (mk_state fresh h t) = (Raise err, s') ∧
    err = Exc ValueError "Invalid OpenAI API key provided." (Some e) ∧
    self s' = fresh ∧
    ∀ env0 name0 kw0 s0,
      truthy (resolve_API_KEY env0 kw0) = false →
      ∃ err0, __init__ env0 name0 kw0 s0 = (Raise err0, s0) ∧ exc_cls err0 = exc_cls err.
Proof.
  intros Hkw Henv Hkey [He Hrej].
  assert (Hres : resolve_API_KEY env kw = PyStr key).
  { unfold resolve_API_KEY, environ_get. by rewrite (dict_in_None _ _ Hkw), Henv. }
  assert (Htruthy : truthy (PyStr key) = true).
  { simpl. destruct key; [done | reflexivity]. }
  assert (Hrun : ∃ s', __init__ env name kw (mk_state fresh h t)
                        = (Raise (Exc ValueError "Invalid OpenAI API key provided." (Some e)), s')
                        ∧ self s' = fresh).
  { unfold __init__. rewrite Hres, Htruthy. simpl.
    unfold bind at 1, try_except, bind, new_OpenAI, client_models_list, raise.
    rewrite (dict_in_None _ _ Hkw). simpl.
    destruct Hrej as [-> | (c & -> & ->)]; rewrite He; eexists; split; reflexivity. }
  destruct Hrun as (s' & Hrun & Hself).
  eexists _, s'. repeat split; [exact Hrun | exact Hself |].
  intros env0 name0 kw0 s0 Hmiss. eexists. split.
  - by apply init_missing_credential.
  - reflexivity.
Qed.

Lemma rejected_credential_raises_ValueError_witness :
  ∃ err s',
    __init__ Scenario.env_rejecting "test-model" ∅ (mk_state fresh ∅ []) = (Raise err, s') ∧
    err = Exc ValueError "Invalid OpenAI API key provided."
              (Some (new_exc AuthenticationError "Incorrect API key provided")) ∧
    self s' = fresh ∧
    ∀ env0 name0 kw0 s0,
      truthy (resolve_API_KEY env0 kw0) = false →
      ∃ err0, __init__ env0 name0 kw0 s0 = (Raise err0, s0) ∧ exc_cls err0 = exc_cls err.
Proof.
  apply (rejected_credential_raises_ValueError Scenario.env_rejecting "test-model" ∅ ∅ []
           "bad-key").
  - reflexivity.
  - reflexivity.
  - discriminate.
  - split; [reflexivity|]. right. exists (ClientHandle 0). split; reflexivity.
Defined.

(** ** configure *)

(** [configure] in direct style, on an instance whose [models] and
    [model_name] are bound. *)
Lemma configure_unfold mv sp rt s ms n :
  models (self s) = Some ms →
  model_name (self s) = Some n →
  configure mv sp rt s =
    if String.eqb mv "" then
      (Raise (new_exc ValueError "Model version must be specified."), s)
    else if negb (bool_decide (mv ∈ ms)) then
      (Raise (new_exc ValueError
                ("Model version '" +:+ mv +:+ "' is not available as an OpenAI models.")), s)
    else if is_not_None rt && negb (isinstance_BaseRetriever (heap s) rt) then
      (Raise (new_exc TypeError "Retriever must be an instance of BaseRetriever."),
       with_self (assign_version_prompt mv sp (self s)) s)
    else
      (Ok {| cfg_status := true;
             cfg_message := "OpenAI model '" +:+ n +:+ "' configured successfully.";
             cfg_model_version := PyStr mv;
             cfg_retriever := type_name (heap s) rt |},
       with_self (assign_all mv sp rt (self s)) s).
Proof.
  intros Hms Hn. unfold configure, _check_client, hasattr, getattr, bind, ret, raise.
  simpl. rewrite Hms. simpl. rewrite andb_false_r.
  destruct (String.eqb mv ""); simpl; [reflexivity|].
  rewrite Hms.
  destruct (negb (bool_decide (mv ∈ ms))); simpl; [reflexivity|].
  unfold is_not_None, assign_version_prompt, assign_all, with_self.
  destruct ((match rt with PyNone => false | _ => true end)
            && negb (isinstance_BaseRetriever (heap s) rt)); simpl; [reflexivity|].
  rewrite Hn. reflexivity.
Qed.

(** C4. On an instance whose model list is [ms], [configure] with a model
    version that is not in [ms] raises a [ValueError] whose message names
    that version (for a non-empty version it reads "Model version '<version>'
    is not available as an OpenAI models."), and the instance, the heap and
    the trace are left as they were. *)
Theorem configure_unknown_version mv sp rt s ms :
  models (self s) = Some ms →
  mv ∉ ms →
  ∃ msg,
    configure mv sp rt s = (Raise (new_exc ValueError msg), s) ∧
    names msg mv ∧
    (mv ≠ "" →
     msg = "Model version '" +:+ mv +:+ "' is not available as an OpenAI models.").
Proof.
  intros Hms Hnot.
  unfold configure, _check_client, hasattr, getattr, bind, ret, raise.
  simpl. rewrite Hms. simpl. rewrite andb_false_r.
  destruct mv as [|ch mv]; simpl.
  - eexists. split; [reflexivity|]. split; [|done].
    by exists "", "Model version must be specified.".
  - rewrite Hms. rewrite (bool_decide_eq_false_2 _ Hnot). simpl.
    eexists. split; [reflexivity|]. split; [|done].
    by exists "Model version '", "' is not available as an OpenAI models.".
Qed.

Lemma configure_unknown_version_witness :
  ∃ msg,
    configure "bad-model" PyNone PyNone (mk_state Scenario.configured Scenario.heap0 [])
    = (Raise (new_exc ValueError msg), mk_state Scenario.configured Scenario.heap0 []) ∧
    names msg "bad-model" ∧
    ("bad-model" ≠ "" →
     msg = "Model version '" +:+ "bad-model" +:+ "' is not available as an OpenAI models.").
Proof.
  apply (configure_unknown_version "bad-model" PyNone PyNone
           (mk_state Scenario.configured Scenario.heap0 []) ["gpt-3.5-turbo"; "gpt-4"]).
  - reflexivity.
  - intros H. repeat (apply elem_of_cons in H as [H|H]; [discriminate H|]).
    by apply elem_of_nil in H.
Defined.

(** C2, as stated, fails.  On the instance configured with
    [gpt-3.5-turbo], prompt [sp] and retriever [0], the call
    [configure("gpt-4", "other", "not a retriever")] raises [TypeError] and
    yet leaves [model_version = "gpt-4"] and [system_prompt = "other"]. *)
Lemma configure_not_atomic :
  configure "gpt-4" (PyStr "other") (PyStr "not a retriever")
    (mk_state Scenario.configured Scenario.heap0 [])
  = (Raise (new_exc TypeError "Retriever must be an instance of BaseRetriever."),
     mk_state {| client := Some (ClientHandle 0);
                 models := Some ["gpt-3.5-turbo"; "gpt-4"];
                 model_name := Some "test-model";
                 model_version := Some (PyStr "gpt-4");
                 system_prompt := Some (PyStr "other");
                 retriever := Some (PyRef 0) |} Scenario.heap0 [])
  ∧ ¬ configure_atomic.
Proof.
  assert (Hrun : configure "gpt-4" (PyStr "other") (PyStr "not a retriever")
    (mk_state Scenario.configured Scenario.heap0 [])
  = (Raise (new_exc TypeError "Retriever must be an instance of BaseRetriever."),
     mk_state {| client := Some (ClientHandle 0);
                 models := Some ["gpt-3.5-turbo"; "gpt-4"];
                 model_name := Some "test-model";
                 model_version := Some (PyStr "gpt-4");
                 system_prompt := Some (PyStr "other");
                 retriever := Some (PyRef 0) |} Scenario.heap0 [])).
  { vm_compute. reflexivity. }
  split; [exact Hrun|].
  intros Hatomic. apply Hatomic in Hrun as (Hmv & _).
  - discriminate Hmv.
  - unfold initialized. simpl. eauto 10.
Qed.

(** C2, amended.  A failing [configure] never touches [retriever], the heap
    or the trace.  When it fails with [ValueError] (no client, empty or
    unknown model version) the instance is unchanged; when it fails with
    [TypeError] (the retriever is no [BaseRetriever]) [model_version] and
    [system_prompt] already hold the values passed in. *)
Theorem configure_failure_effect mv sp rt s e s' :
  initialized (self s) →
  configure mv sp rt s = (Raise e, s') →
  heap s' = heap s ∧ trace s' = trace s ∧
  retriever (self s') = retriever (self s) ∧
  ((exc_cls e = ValueError ∧ self s' = self s) ∨
   (exc_cls e = TypeError ∧
    model_version (self s') = Some (PyStr mv) ∧
    system_prompt (self s') = Some sp)).
Proof.
  intros (_ & [ms Hms] & [n Hn] & _).
  rewrite (configure_unfold mv sp rt s ms n Hms Hn).
  destruct (String.eqb mv ""); [intros [= <- <-]; auto 10|].
  destruct (negb (bool_decide (mv ∈ ms))); [intros [= <- <-]; auto 10|].
  destruct (is_not_None rt && negb (isinstance_BaseRetriever (heap s) rt));
    [intros [= <- <-]; simpl; auto 10 | intros [=]].
Qed.

Lemma configure_failure_effect_witness :
  heap (mk_state (assign_version_prompt "gpt-4" (PyStr "other") Scenario.configured)
          Scenario.heap0 []) = Scenario.heap0 ∧
  trace (mk_state (assign_version_prompt "gpt-4" (PyStr "other") Scenario.configured)
          Scenario.heap0 []) = [] ∧
  retriever (assign_version_prompt "gpt-4" (PyStr "other") Scenario.configured)
  = retriever Scenario.configured ∧
  ((exc_cls (new_exc TypeError "Retriever must be an instance of BaseRetriever.") = ValueError ∧
    assign_version_prompt "gpt-4" (PyStr "other") Scenario.configured = Scenario.configured) ∨
   (exc_cls (new_exc TypeError "Retriever must be an instance of BaseRetriever.") = TypeError ∧
    model_version (assign_version_prompt "gpt-4" (PyStr "other") Scenario.configured)
    = Some (PyStr "gpt-4") ∧
    system_prompt (assign_version_prompt "gpt-4" (PyStr "other") Scenario.configured)
    = Some (PyStr "other"))).
Proof.
  apply (configure_failure_effect "gpt-4" (PyStr "other") (PyStr "not a retriever")
           (mk_state Scenario.configured Scenario.heap0 [])).
  - unfold initialized. simpl. eauto 10.
  - vm_compute. reflexivity.
Defined.

(** ** generate and embed *)

(** Running a method body one statement at a time. *)
Lemma bind_Ok {A B} (m : M A) (k : A → M B) s a s1 :
  m s = (Ok a, s1) → bind m k s = k a s1.
Proof. unfold bind. by intros ->. Qed.

Lemma bind_Raise {A B} (m : M A) (k : A → M B) s e s1 :
  m s = (Raise e, s1) → bind m k s = (Raise e, s1).
Proof. unfold bind. by intros ->. Qed.

Ltac mstep H :=
  first [ rewrite (bind_Ok _ _ _ _ _ H) | rewrite (bind_Raise _ _ _ _ _ H) ];
  cbv beta.

Lemma getattr_Some {A} name (proj : OpenAILLM → option A) s a :
  proj (self s) = Some a → getattr name proj s = (Ok a, s).
Proof. unfold getattr. by intros ->. Qed.

Lemma check_client_ok s c : client (self s) = Some c → _check_client s = (Ok tt, s).
Proof. intros H. unfold _check_client, hasattr, bind, ret. simpl. by rewrite H. Qed.

Lemma check_retriever_ok s r :
  retriever (self s) = Some r → _check_retriever s = (Ok tt, s).
Proof. intros H. unfold _check_retriever, hasattr, bind, ret. simpl. by rewrite H. Qed.

(** A method call on an object that has the method. *)
Lemma invoke_ref {A X} a name (sel : pyclass → option (X → pyval → pyres A * pyval))
    (args : M X) ev s o f x s1 r st' :
  heap s !! a = Some o →
  sel (ob_class o) = Some f →
  args s = (Ok x, s1) →
  f x (ob_state o) = (r, st') →
  invoke (PyRef a) name sel args ev s
  = (r, with_heap (<[a := {| ob_class := ob_class o; ob_state := st' |}]> (heap s1))
          (log (ev a x) s1)).
Proof. unfold invoke. by intros -> -> -> ->. Qed.

(** A method call on [None]. *)
Lemma invoke_None {A X} name (sel : pyclass → option (X → pyval → pyres A * pyval))
    (args : M X) ev s :
  invoke PyNone name sel args ev s = (Raise (no_attribute "NoneType" name), s).
Proof. reflexivity. Qed.

Lemma system_content_bound kw s stored :
  system_prompt (self s) = Some stored →
  system_content kw s = (Ok (chosen_system_prompt kw stored), s).
Proof.
  intros H. unfold system_content, chosen_system_prompt, getattr, ret.
  destruct (negb (dict_in "system_prompt" kw)); [by rewrite H | reflexivity].
Qed.

Lemma chosen_system_prompt_supplied kw stored v :
  kw !! "system_prompt" = Some v → chosen_system_prompt kw stored = v.
Proof.
  intros H. unfold chosen_system_prompt, dict_get.
  by rewrite (dict_in_Some _ _ _ H), H.
Qed.

Lemma chosen_system_prompt_stored kw stored :
  kw !! "system_prompt" = None → chosen_system_prompt kw stored = stored.
Proof. intros H. unfold chosen_system_prompt. by rewrite (dict_in_None _ _ H). Qed.

Lemma chat_create_no_clash env c model messages mt kw s :
  no_clash kw →
  chat_create env c model messages mt kw s
  = (chat_completions_create env (trace s) c
       {| req_model := model; req_messages := messages;
          req_max_tokens := mt; req_kwargs := kw |},
     log (EvChatCreate c {| req_model := model; req_messages := messages;
                            req_max_tokens := mt; req_kwargs := kw |}) s).
Proof.
  intros (H1 & H2 & H3). unfold chat_create.
  by rewrite (dict_in_None _ _ H1), (dict_in_None _ _ H2), (dict_in_None _ _ H3).
Qed.

(** [generate] without retrieval, in direct style. *)
Lemma generate_plain_unfold env up mt kw s c v stored n :
  client (self s) = Some c →
  model_version (self s) = Some v →
  system_prompt (self s) = Some stored →
  model_name (self s) = Some n →
  no_clash kw →
  generate env up false mt kw s =
    let req := {| req_model := v;
                  req_messages := [system_message (chosen_system_prompt kw stored);
                                   user_message up];
                  req_max_tokens := mt; req_kwargs := kw |} in
    (match chat_completions_create env (trace s) c req with
     | Ok resp => Ok (normalize n resp)
     | Raise e => Raise e
     end, log (EvChatCreate c req) s).
Proof.
  intros Hc Hv Hsp Hn Hkw. unfold generate.
  mstep (check_client_ok s c Hc).
  unfold bind at 1.
  mstep (getattr_Some "client" client s c Hc).
  mstep (getattr_Some "model_version" model_version s v Hv).
  mstep (system_content_bound kw s stored Hsp).
  rewrite (chat_create_no_clash _ _ _ _ _ _ _ Hkw). cbv zeta.
  destruct (chat_completions_create _ _ _ _) as [resp|e]; [|reflexivity].
  by mstep (getattr_Some "model_name" model_name
              (log (EvChatCreate c {| req_model := v;
                  req_messages := [system_message (chosen_system_prompt kw stored);
                                   user_message up];
                  req_max_tokens := mt; req_kwargs := kw |}) s) n Hn).
Qed.

Lemma check_embeddings_run s a o hf b st1 :
  retriever (self s) = Some (PyRef a) →
  heap s !! a = Some o →
  cls_has_embedding (ob_class o) = Some hf →
  hf (ob_state o) = (Ok b, st1) →
  _check_embeddings s
  = (if truthy b then Ok tt
     else Raise (new_exc EmbeddingError
                   "Embeddings have not been generated. Please call the embed() method first."),
     after_call a o st1 (EvHasEmbedding a) s).
Proof.
  intros Hr Ho Hf Hb. unfold _check_embeddings.
  mstep (check_retriever_ok s _ Hr).
  mstep (getattr_Some "retriever" retriever s _ Hr).
  assert (Hsel : (λ k, (λ f (_ : unit), f) <$> cls_has_embedding k) (ob_class o)
                 = Some (λ _, hf)) by (simpl; by rewrite Hf).
  mstep (invoke_ref a "has_embedding" _ (ret tt) (λ a _, EvHasEmbedding a)
           s o (λ _, hf) tt s (Ok b) st1 Ho Hsel eq_refl Hb).
  by destruct (truthy b).
Qed.

Lemma check_embeddings_None s :
  retriever (self s) = Some PyNone →
  _check_embeddings s = (Raise (no_attribute "NoneType" "has_embedding"), s).
Proof.
  intros Hr. unfold _check_embeddings.
  mstep (check_retriever_ok s _ Hr).
  mstep (getattr_Some "retriever" retriever s _ Hr).
  unfold bind. by rewrite invoke_None.
Qed.

(** C1. On an instance whose [retriever] is [None] (as [__init__] leaves
    it), [generate] with retrieval does not raise the [ValueError] of
    [_check_retriever] but an [AttributeError] from the call
    [None.has_embedding()], and [embed] raises an [EmbeddingError] wrapping
    the [AttributeError] of [None.embed]. *)
Theorem retriever_None_passes_check_retriever env up mt kw s c :
  client (self s) = Some c →
  retriever (self s) = Some PyNone →
  _check_retriever s = (Ok tt, s) ∧
  generate env up true mt kw s
  = (Raise (new_exc AttributeError "'NoneType' object has no attribute 'has_embedding'"), s) ∧
  embed s
  = (Raise (new_exc EmbeddingError
              "Failed to generate embeddings: 'NoneType' object has no attribute 'embed'"), s).
Proof.
  intros Hc Hr. split; [exact (check_retriever_ok s _ Hr)|]. split.
  - unfold generate.
    mstep (check_client_ok s c Hc).
    unfold bind at 1.
    mstep (check_retriever_ok s _ Hr).
    mstep (check_embeddings_None s Hr).
    reflexivity.
  - unfold embed.
    mstep (check_client_ok s c Hc).
    mstep (check_retriever_ok s _ Hr).
    unfold try_except.
    mstep (getattr_Some "retriever" retriever s _ Hr).
    unfold bind at 1. rewrite invoke_None. reflexivity.
Qed.

Lemma retriever_None_passes_check_retriever_witness :
  _check_retriever (mk_state Scenario.constructed ∅ [])
  = (Ok tt, mk_state Scenario.constructed ∅ []) ∧
  generate Scenario.env_ok "hi" true 10 ∅ (mk_state Scenario.constructed ∅ [])
  = (Raise (new_exc AttributeError "'NoneType' object has no attribute 'has_embedding'"),
     mk_state Scenario.constructed ∅ []) ∧
  embed (mk_state Scenario.constructed ∅ [])
  = (Raise (new_exc EmbeddingError
              "Failed to generate embeddings: 'NoneType' object has no attribute 'embed'"),
     mk_state Scenario.constructed ∅ []).
Proof.
  apply (retriever_None_passes_check_retriever Scenario.env_ok "hi" 10 ∅
           (mk_state Scenario.constructed ∅ []) (ClientHandle 0)); reflexivity.
Defined.

(** C6. The retriever is an object whose [has_embedding()] returns a false
    value: [generate] with retrieval raises the [EmbeddingError] that asks
    for [embed()] first.  The instance is unchanged and the only call made
    is [has_embedding] itself: nothing was retrieved for a message list and
    no request went to the provider. *)
Theorem generate_rag_without_embeddings env up mt kw s c a o hf b st1 :
  client (self s) = Some c →
  retriever (self s) = Some (PyRef a) →
  heap s !! a = Some o →
  cls_has_embedding (ob_class o) = Some hf →
  hf (ob_state o) = (Ok b, st1) →
  truthy b = false →
  ∃ s', generate env up true mt kw s
        = (Raise (new_exc EmbeddingError
                    "Embeddings have not been generated. Please call the embed() method first."),
           s') ∧
        self s' = self s ∧
        trace s' = (trace s ++ [EvHasEmbedding a])%list.
Proof.
  intros Hc Hr Ho Hf Hb Hfalse. eexists. split; [|split].
  - unfold generate.
    mstep (check_client_ok s c Hc).
    unfold bind at 1.
    mstep (check_retriever_ok s _ Hr).
    unfold bind at 1.
    rewrite (check_embeddings_run s a o hf b st1 Hr Ho Hf Hb), Hfalse.
    reflexivity.
  - reflexivity.
  - reflexivity.
Qed.

Lemma generate_rag_without_embeddings_witness :
  ∃ s', generate Scenario.env_ok "hi" true 10 ∅
          (mk_state Scenario.configured Scenario.heap0 [])
        = (Raise (new_exc EmbeddingError
                    "Embeddings have not been generated. Please call the embed() method first."),
           s') ∧
        self s' = Scenario.configured ∧
        trace s' = ([] ++ [EvHasEmbedding 0%nat])%list.
Proof.
  apply (generate_rag_without_embeddings Scenario.env_ok "hi" 10 ∅
           (mk_state Scenario.configured Scenario.heap0 []) (ClientHandle 0) 0%nat
           {| ob_class := Scenario.StubRetriever; ob_state := PyBool false |}
           (λ st, (Ok st, st)) (PyBool false) (PyBool false)); reflexivity.
Defined.

(** The last statement of [generate] makes no call. *)
Lemma generate_return_state (resp : Response) s :
  (bind (getattr "model_name" model_name)
        (λ n, ret {| gen_status := true;
                     gen_message := "Response generated successfully.";
                     gen_choices := map message_content (choices resp);
                     gen_model := n;
                     gen_usage := usage resp |}) s).2 = s.
Proof. unfold bind, getattr, ret. by destruct (model_name (self s)). Qed.

(** C7. [generate] with retrieval on an instance that passes the checks
    (client and retriever bound, [has_embedding()] true) and whose
    retriever answers [retrieve(user_prompt)] with [ctx]: one request goes
    to the provider, and its message list is exactly the system message,
    the user message carrying [user_prompt] unchanged, and an assistant
    message whose content is [ctx], in this order. *)
Theorem generate_rag_messages env up mt kw s c v stored a o hf b st1 rf ctx st2 :
  client (self s) = Some c →
  model_version (self s) = Some v →
  system_prompt (self s) = Some stored →
  retriever (self s) = Some (PyRef a) →
  heap s !! a = Some o →
  cls_has_embedding (ob_class o) = Some hf →
  hf (ob_state o) = (Ok b, st1) →
  truthy b = true →
  resolve_retrieve (ob_class o) = Some rf →
  rf up st1 = (Ok ctx, st2) →
  no_clash kw →
  ∃ req,
    trace (generate env up true mt kw s).2
    = (trace s ++ [EvHasEmbedding a; EvRetrieve a up; EvChatCreate c req])%list ∧
    req_messages req
    = [system_message (chosen_system_prompt kw stored);
       user_message up;
       assistant_message ctx] ∧
    req_model req = v ∧ req_max_tokens req = mt ∧ req_kwargs req = kw.
Proof.
  intros Hc Hv Hsp Hr Ho Hf Hb Htrue Hrf Hctx Hkw.
  eexists {| req_model := v; req_messages := _; req_max_tokens := mt; req_kwargs := kw |}.
  split; [|by repeat split].
  unfold generate.
  mstep (check_client_ok s c Hc).
  unfold bind at 1.
  mstep (check_retriever_ok s _ Hr).
  pose proof (check_embeddings_run s a o hf b st1 Hr Ho Hf Hb) as Hemb.
  rewrite Htrue in Hemb. mstep Hemb.
  set (s1 := after_call a o st1 (EvHasEmbedding a) s).
  mstep (getattr_Some "client" client s1 c Hc).
  mstep (getattr_Some "model_version" model_version s1 v Hv).
  mstep (system_content_bound kw s1 stored Hsp).
  mstep (getattr_Some "retriever" retriever s1 _ Hr).
  assert (Ho1 : heap s1 !! a = Some {| ob_class := ob_class o; ob_state := st1 |})
    by apply lookup_insert_eq.
  mstep (invoke_ref a "retrieve" resolve_retrieve (ret up) EvRetrieve s1 _ rf up s1
           (Ok ctx) st2 Ho1 Hrf eq_refl Hctx).
  rewrite (chat_create_no_clash _ _ _ _ _ _ _ Hkw).
  destruct (chat_completions_create _ _ _ _) as [resp|e].
  - rewrite generate_return_state. simpl. by rewrite <- !app_assoc.
  - simpl. by rewrite <- !app_assoc.
Qed.

Lemma generate_rag_messages_witness :
  ∃ req,
    trace (generate Scenario.env_ok "hi" true 10 ∅
             (mk_state Scenario.configured Scenario.heap1 [])).2
    = ([] ++ [EvHasEmbedding 0%nat; EvRetrieve 0%nat "hi"; EvChatCreate (ClientHandle 0) req])%list ∧
    req_messages req
    = [system_message (chosen_system_prompt ∅ (PyStr "sp"));
       user_message "hi";
       assistant_message (PyList [PyStr "doc"])] ∧
    req_model req = PyStr "gpt-3.5-turbo" ∧ req_max_tokens req = 10%Z ∧ req_kwargs req = ∅.
Proof.
  apply (generate_rag_messages Scenario.env_ok "hi" 10 ∅
           (mk_state Scenario.configured Scenario.heap1 []) (ClientHandle 0)
           (PyStr "gpt-3.5-turbo") (PyStr "sp") 0%nat
           {| ob_class := Scenario.StubRetriever; ob_state := PyBool true |}
           (λ st, (Ok st, st)) (PyBool true) (PyBool true)
           (λ q st, (Ok (PyList [PyStr "doc"]), st)) (PyList [PyStr "doc"]) (PyBool true));
    try reflexivity.
  repeat split; reflexivity.
Defined.

(** C8. [generate] without retrieval on a constructed instance: one request
    goes to the provider, with exactly the system and the user message, and
    when the provider answers, the result lists one text per completion, in
    the provider's order. *)
Theorem generate_plain_messages_and_choices env up mt kw s c v stored n :
  client (self s) = Some c →
  model_version (self s) = Some v →
  system_prompt (self s) = Some stored →
  model_name (self s) = Some n →
  no_clash kw →
  ∃ req,
    req_messages req = [system_message (chosen_system_prompt kw stored); user_message up] ∧
    trace (generate env up false mt kw s).2 = (trace s ++ [EvChatCreate c req])%list ∧
    ∀ resp, chat_completions_create env (trace s) c req = Ok resp →
      ∃ out, (generate env up false mt kw s).1 = Ok out ∧
             gen_choices out = map message_content (choices resp) ∧
             length (gen_choices out) = length (choices resp).
Proof.
  intros Hc Hv Hsp Hn Hkw.
  rewrite (generate_plain_unfold env up mt kw s c v stored n Hc Hv Hsp Hn Hkw).
  cbv zeta.
  exists {| req_model := v;
            req_messages := [system_message (chosen_system_prompt kw stored); user_message up];
            req_max_tokens := mt; req_kwargs := kw |}.
  split; [reflexivity|]. split; [reflexivity|].
  intros resp ->. eexists. split; [reflexivity|]. split; [reflexivity|].
  simpl. apply length_map.
Qed.

Lemma generate_plain_messages_and_choices_witness :
  ∃ req,
    req_messages req = [system_message (chosen_system_prompt ∅ (PyStr "sp")); user_message "hi"] ∧
    trace (generate Scenario.env_ok "hi" false 10 ∅
             (mk_state Scenario.configured Scenario.heap0 [])).2
    = ([] ++ [EvChatCreate (ClientHandle 0) req])%list ∧
    ∀ resp, chat_completions_create Scenario.env_ok [] (ClientHandle 0) req = Ok resp →
      ∃ out, (generate Scenario.env_ok "hi" false 10 ∅
                (mk_state Scenario.configured Scenario.heap0 [])).1 = Ok out ∧
             gen_choices out = map message_content (choices resp) ∧
             length (gen_choices out) = length (choices resp).
Proof.
  apply (generate_plain_messages_and_choices Scenario.env_ok "hi" 10 ∅
           (mk_state Scenario.configured Scenario.heap0 []) (ClientHandle 0)
           (PyStr "gpt-3.5-turbo") (PyStr "sp") "test-model"); try reflexivity.
  repeat split; reflexivity.
Defined.

(** C5.  With no [system_prompt] among the extra options and the stored
    prompt [None], the system message [generate] sends has the content
    [None]: the default "You are a helpful assistant." sits in the branch
    taken only when the option is supplied, where it can never apply. *)
Theorem absent_system_prompt_sent_as_None env up mt kw s c v n :
  client (self s) = Some c →
  model_version (self s) = Some v →
  system_prompt (self s) = Some PyNone →
  model_name (self s) = Some n →
  kw !! "system_prompt" = None →
  no_clash kw →
  trace (generate env up false mt kw s).2
  = (trace s ++ [EvChatCreate c {| req_model := v;
                                   req_messages := [system_message PyNone; user_message up];
                                   req_max_tokens := mt;
                                   req_kwargs := kw |}])%list.
Proof.
  intros Hc Hv Hsp Hn Hsys Hkw.
  rewrite (generate_plain_unfold env up mt kw s c v PyNone n Hc Hv Hsp Hn Hkw).
  by rewrite (chosen_system_prompt_stored kw PyNone Hsys).
Qed.

Lemma absent_system_prompt_sent_as_None_witness :
  trace (generate Scenario.env_ok "hi" false 10 ∅ (mk_state Scenario.constructed ∅ [])).2
  = ([] ++ [EvChatCreate (ClientHandle 0)
              {| req_model := PyNone;
                 req_messages := [system_message PyNone; user_message "hi"];
                 req_max_tokens := 10;
                 req_kwargs := ∅ |}])%list.
Proof.
  apply (absent_system_prompt_sent_as_None Scenario.env_ok "hi" 10 ∅
           (mk_state Scenario.constructed ∅ []) (ClientHandle 0) PyNone "test-model");
    try reflexivity.
  repeat split; reflexivity.
Defined.

(** ** What reaches the provider *)

Lemma extends_with_log P t0 ev s :
  P ev → extends_with P t0 s → extends_with P t0 (log ev s).
Proof.
  intros Hev (new & Ht & Hnew). exists (new ++ [ev])%list. split.
  - simpl. by rewrite Ht, app_assoc.
  - apply Forall_app. split; [exact Hnew | by constructor].
Qed.

Lemma extends_with_heap P t0 h s :
  extends_with P t0 s → extends_with P t0 (with_heap h s).
Proof. intros H. exact H. Qed.

Lemma system_content_supplied kw v s :
  kw !! "system_prompt" = Some v → system_content kw s = (Ok v, s).
Proof.
  intros H. unfold system_content, dict_get, ret.
  by rewrite (dict_in_Some _ _ _ H), H.
Qed.

Lemma inv_bind_system_content_supplied {B} I kw v (k : pyval → M B) :
  kw !! "system_prompt" = Some v →
  inv I (k v) → inv I (bind (system_content kw) k).
Proof.
  intros Hkw Hk s r s' HI. rewrite (bind_Ok _ _ _ _ _ (system_content_supplied kw v s Hkw)).
  by apply Hk.
Qed.

(** Whatever the instance, a request [generate] sends while
    [system_prompt] is among the extra options carries the option as its
    system content and among its options. *)
Lemma generate_requests_carry_system_prompt env up rag mt kw s v :
  kw !! "system_prompt" = Some v →
  ∃ new,
    trace (generate env up rag mt kw s).2 = (trace s ++ new)%list ∧
    ∀ c req, EvChatCreate c req ∈ new →
      head (req_messages req) = Some (system_message v) ∧
      req_kwargs req = kw ∧
      req_kwargs req !! "system_prompt" = Some v.
Proof.
  intros Hkw.
  assert (Hinv : inv (extends_with (forwards kw v) (trace s)) (generate env up rag mt kw)).
  { unfold generate.
    repeat first [ apply (inv_bind_system_content_supplied _ kw v); [exact Hkw|]
                 | inv_step ].
    - intros. apply extends_with_heap, extends_with_log; done.
    - intros. apply extends_with_heap, extends_with_log; done.
    - intros. apply extends_with_log; [|done]. by split.
    - intros. apply extends_with_log; [|done]. by split. }
  destruct (generate env up rag mt kw s) as [r s'] eqn:Hrun.
  destruct (Hinv s r s') as (new & Ht & Hnew); [|exact Hrun|].
  { exists []. split; [by rewrite app_nil_r | constructor]. }
  exists new. split; [exact Ht|].
  intros c req Hin. rewrite Forall_forall in Hnew.
  destruct (Hnew _ Hin) as [Hhead Hreq]. by rewrite Hreq.
Qed.

(** C9. When [system_prompt] is among the extra options with value [v], a
    [generate] call that passes its checks (with retrieval: the retriever
    reports embeddings and answers) sends one request to the provider, and
    that request uses [v] twice: as the content of its system message, and
    under the key [system_prompt] of the extra options, which are passed on
    as they came.  The stored system prompt plays no part. *)
Theorem generate_forwards_system_prompt env up rag mt kw s v c mv a ctx :
  kw !! "system_prompt" = Some v →
  no_clash kw →
  client (self s) = Some c →
  model_version (self s) = Some mv →
  (rag = true → retrieves s up a ctx) →
  ∃ req,
    trace (generate env up rag mt kw s).2
    = (trace s ++ (if rag then [EvHasEmbedding a; EvRetrieve a up] else [])
       ++ [EvChatCreate c req])%list ∧
    req_messages req
    = system_message v :: user_message up
      :: (if rag then [assistant_message ctx] else []) ∧
    req_kwargs req = kw ∧
    req_kwargs req !! "system_prompt" = Some v ∧
    req_model req = mv ∧ req_max_tokens req = mt.
Proof.
  intros Hsys Hkw Hc Hv Hret.
  eexists {| req_model := mv; req_messages := _; req_max_tokens := mt; req_kwargs := kw |}.
  split; [|by repeat split].
  unfold generate.
  mstep (check_client_ok s c Hc).
  unfold bind at 1.
  destruct rag.
  - destruct (Hret eq_refl) as (o & hf & b & st1 & rf & st2 & Hr & Ho & Hf & Hb & Htrue & Hrf & Hctx).
    mstep (check_retriever_ok s _ Hr).
    pose proof (check_embeddings_run s a o hf b st1 Hr Ho Hf Hb) as Hemb.
    rewrite Htrue in Hemb. mstep Hemb.
    set (s1 := after_call a o st1 (EvHasEmbedding a) s).
    mstep (getattr_Some "client" client s1 c Hc).
    mstep (getattr_Some "model_version" model_version s1 mv Hv).
    mstep (system_content_supplied kw v s1 Hsys).
    mstep (getattr_Some "retriever" retriever s1 _ Hr).
    assert (Ho1 : heap s1 !! a = Some {| ob_class := ob_class o; ob_state := st1 |})
      by apply lookup_insert_eq.
    mstep (invoke_ref a "retrieve" resolve_retrieve (ret up) EvRetrieve s1 _ rf up s1
             (Ok ctx) st2 Ho1 Hrf eq_refl Hctx).
    rewrite (chat_create_no_clash _ _ _ _ _ _ _ Hkw).
    destruct (chat_completions_create _ _ _ _) as [resp|e].
    + rewrite generate_return_state. simpl. by rewrite <- !app_assoc.
    + simpl. by rewrite <- !app_assoc.
  - mstep (getattr_Some "client" client s c Hc).
    mstep (getattr_Some "model_version" model_version s mv Hv).
    mstep (system_content_supplied kw v s Hsys).
    rewrite (chat_create_no_clash _ _ _ _ _ _ _ Hkw).
    destruct (chat_completions_create _ _ _ _) as [resp|e].
    + by rewrite generate_return_state.
    + reflexivity.
Qed.

Lemma generate_forwards_system_prompt_witness :
  ∃ req,
    trace (generate Scenario.env_ok "hi" true 10 {[ "system_prompt" := PyStr "be brief" ]}
             (mk_state Scenario.configured Scenario.heap1 [])).2
    = ([] ++ (if true then [EvHasEmbedding 0%nat; EvRetrieve 0%nat "hi"] else [])
       ++ [EvChatCreate (ClientHandle 0) req])%list ∧
    req_messages req
    = system_message (PyStr "be brief") :: user_message "hi"
      :: (if true then [assistant_message (PyList [PyStr "doc"])] else []) ∧
    req_kwargs req = {[ "system_prompt" := PyStr "be brief" ]} ∧
    req_kwargs req !! "system_prompt" = Some (PyStr "be brief") ∧
    req_model req = PyStr "gpt-3.5-turbo" ∧ req_max_tokens req = 10%Z.
Proof.
  apply (generate_forwards_system_prompt Scenario.env_ok "hi" true 10
           {[ "system_prompt" := PyStr "be brief" ]}
           (mk_state Scenario.configured Scenario.heap1 []) (PyStr "be brief")
           (ClientHandle 0) (PyStr "gpt-3.5-turbo") 0%nat (PyList [PyStr "doc"])).
  - reflexivity.
  - repeat split; reflexivity.
  - reflexivity.
  - reflexivity.
  - intros _.
    exists {| ob_class := Scenario.StubRetriever; ob_state := PyBool true |},
           (λ st, (Ok st, st)), (PyBool true), (PyBool true),
           (λ q st, (Ok (PyList [PyStr "doc"]), st)), (PyBool true).
    repeat split; reflexivity.
Defined.

(** The request of that run. *)
Example system_prompt_option_run :
  trace (generate Scenario.env_ok "hi" false 10 {[ "system_prompt" := PyStr "be brief" ]}
           (mk_state Scenario.configured Scenario.heap0 [])).2
  = [EvChatCreate (ClientHandle 0)
       {| req_model := PyStr "gpt-3.5-turbo";
          req_messages := [system_message (PyStr "be brief"); user_message "hi"];
          req_max_tokens := 10;
          req_kwargs := {[ "system_prompt" := PyStr "be brief" ]} |}].
Proof. vm_compute. reflexivity. Qed.

(** Whatever the instance and the arguments, a request [generate] sends has
    two messages without retrieval and three with it. *)
Lemma generate_request_shape env up rag mt kw s :
  ∃ new,
    trace (generate env up rag mt kw s).2 = (trace s ++ new)%list ∧
    Forall (request_shape up rag) new.
Proof.
  assert (Hinv : inv (extends_with (request_shape up rag) (trace s))
                     (generate env up rag mt kw)).
  { unfold generate. destruct rag; repeat inv_step.
    - intros. apply extends_with_heap, extends_with_log; done.
    - intros. apply extends_with_heap, extends_with_log; done.
    - intros. apply extends_with_log; [|done]. simpl. eauto.
    - intros. apply extends_with_log; [|done]. simpl. eauto. }
  destruct (generate env up rag mt kw s) as [r s'] eqn:Hrun.
  apply (Hinv s r s'); [|exact Hrun].
  exists []. split; [by rewrite app_nil_r | constructor].
Qed.

(** ** The scenario, run *)

Example init_scenario :
  __init__ Scenario.env_ok "test-model" ∅ (mk_state fresh ∅ [])
  = (Ok tt, mk_state Scenario.constructed ∅
              [EvOpenAI (PyStr "test-key") ∅; EvModelsList (ClientHandle 0)]).
Proof. vm_compute. reflexivity. Qed.

Example configure_scenario :
  configure "gpt-3.5-turbo" (PyStr "sp") (PyRef 0)
    (mk_state Scenario.constructed Scenario.heap0 [])
  = (Ok {| cfg_status := true;
           cfg_message := "OpenAI model 'test-model' configured successfully.";
           cfg_model_version := PyStr "gpt-3.5-turbo";
           cfg_retriever := "StubRetriever" |},
     mk_state Scenario.configured Scenario.heap0 []).
Proof. vm_compute. reflexivity. Qed.

(** * Further properties *)

(** ** __init__ *)

(** [__init__] in direct style. *)
Lemma init_unfold env name kw s :
  __init__ env name kw s =
    let key := resolve_API_KEY env kw in
    if negb (truthy key) then
      (Raise (new_exc ValueError "OPENAI_API_KEY environment variable is not set."), s)
    else if dict_in "api_key" kw then
      (Raise (new_exc TypeError "got multiple values for keyword argument 'api_key'"), s)
    else
      match OpenAI env (trace s) key kw with
      | Raise e => (Raise (init_reraise e), log (EvOpenAI key kw) s)
      | Ok c =>
          match models_list env (trace s ++ [EvOpenAI key kw]) c with
          | Raise e =>
              (Raise (init_reraise e), log (EvModelsList c) (log (EvOpenAI key kw) s))
          | Ok ms =>
              (Ok tt, with_self (constructed_with c ms name)
                        (log (EvModelsList c) (log (EvOpenAI key kw) s)))
          end
      end.
Proof.
  unfold __init__. cbv zeta.
  destruct (negb (truthy (resolve_API_KEY env kw))); [reflexivity|].
  unfold bind at 1, try_except, bind at 1, new_OpenAI, raise, init_reraise.
  destruct (dict_in "api_key" kw); [reflexivity|].
  destruct (OpenAI env (trace s) (resolve_API_KEY env kw) kw) as [c|e]; simpl.
  - unfold bind at 1, client_models_list. simpl.
    destruct (models_list env _ c) as [ms|e]; simpl.
    + reflexivity.
    + by destruct (is_AuthenticationError e).
  - by destruct (is_AuthenticationError e).
Qed.

Lemma resolve_API_KEY_environ env kw :
  kw !! "api_key" = None →
  resolve_API_KEY env kw = environ_get env "OPENAI_API_KEY".
Proof. intros H. unfold resolve_API_KEY. by rewrite (dict_in_None _ _ H). Qed.

Lemma resolve_API_KEY_explicit env kw v :
  kw !! "api_key" = Some v → resolve_API_KEY env kw = v.
Proof.
  intros H. unfold resolve_API_KEY, dict_get. by rewrite (dict_in_Some _ _ _ H), H.
Qed.

(** X1. Without [api_key] among the keyword arguments and with the
    environment variable unset or empty, [__init__] raises the [ValueError]
    about the missing key; nothing has been assigned and no call has gone
    to the provider. *)
Theorem init_without_credential env name kw s :
  kw !! "api_key" = None →
  environ env !! "OPENAI_API_KEY" = None ∨ environ env !! "OPENAI_API_KEY" = Some "" →
  __init__ env name kw s
  = (Raise (new_exc ValueError "OPENAI_API_KEY environment variable is not set."), s).
Proof.
  intros Hkw Henv. apply init_missing_credential.
  rewrite (resolve_API_KEY_environ _ _ Hkw). unfold environ_get.
  by destruct Henv as [-> | ->].
Qed.

Lemma init_without_credential_witness :
  __init__ Scenario.env_no_key "test-model" {[ "test_1" := PyStr "test" ]}
    (mk_state fresh ∅ [])
  = (Raise (new_exc ValueError "OPENAI_API_KEY environment variable is not set."),
     mk_state fresh ∅ []).
Proof.
  apply (init_without_credential Scenario.env_no_key "test-model"
           {[ "test_1" := PyStr "test" ]} (mk_state fresh ∅ [])).
  - reflexivity.
  - left. reflexivity.
Defined.

(** X2. An [api_key] argument with a false value ([None], the empty
    string) is not replaced by the environment variable: [__init__]
    raises the missing-key [ValueError] even when the variable is set. *)
Theorem init_explicit_false_key_hides_environment env name kw s v :
  kw !! "api_key" = Some v →
  truthy v = false →
  __init__ env name kw s
  = (Raise (new_exc ValueError "OPENAI_API_KEY environment variable is not set."), s).
Proof.
  intros Hkw Hv. apply init_missing_credential.
  by rewrite (resolve_API_KEY_explicit _ _ _ Hkw).
Qed.

Lemma init_explicit_false_key_hides_environment_witness :
  __init__ Scenario.env_ok "test-model" {[ "api_key" := PyNone ]} (mk_state fresh ∅ [])
  = (Raise (new_exc ValueError "OPENAI_API_KEY environment variable is not set."),
     mk_state fresh ∅ []).
Proof.
  apply (init_explicit_false_key_hides_environment Scenario.env_ok "test-model"
           {[ "api_key" := PyNone ]} (mk_state fresh ∅ []) PyNone); reflexivity.
Defined.

(** X3. An [api_key] argument with a true value never builds an
    instance: the key is passed to the provider's constructor both by name
    and inside [**kwargs], which is a [TypeError] before the constructor
    runs, so nothing is assigned and the provider is not reached. *)
Theorem init_explicit_key_is_TypeError env name kw s v :
  kw !! "api_key" = Some v →
  truthy v = true →
  __init__ env name kw s
  = (Raise (new_exc TypeError "got multiple values for keyword argument 'api_key'"), s).
Proof.
  intros Hkw Hv. rewrite init_unfold. cbv zeta.
  by rewrite (resolve_API_KEY_explicit _ _ _ Hkw), Hv, (dict_in_Some _ _ _ Hkw).
Qed.

Lemma init_explicit_key_is_TypeError_witness :
  __init__ Scenario.env_ok "test-model" {[ "api_key" := PyStr "test-key" ]}
    (mk_state fresh ∅ [])
  = (Raise (new_exc TypeError "got multiple values for keyword argument 'api_key'"),
     mk_state fresh ∅ []).
Proof.
  apply (init_explicit_key_is_TypeError Scenario.env_ok "test-model"
           {[ "api_key" := PyStr "test-key" ]} (mk_state fresh ∅ []) (PyStr "test-key"));
    reflexivity.
Defined.

(** X4. [__init__] returns exactly when there is no [api_key] argument, the
    environment variable holds a non-empty key, and the provider both
    builds the client from that key and the untouched keyword arguments and
    lists its models.  The instance then holds the client, the model ids and
    the name, and the trace has grown by these two provider calls. *)
Theorem init_returns_iff env name kw s s' :
  __init__ env name kw s = (Ok tt, s') ↔
  ∃ key c ms,
    kw !! "api_key" = None ∧
    environ env !! "OPENAI_API_KEY" = Some key ∧
    key ≠ "" ∧
    OpenAI env (trace s) (PyStr key) kw = Ok c ∧
    models_list env (trace s ++ [EvOpenAI (PyStr key) kw]) c = Ok ms ∧
    self s' = constructed_with c ms name ∧
    heap s' = heap s ∧
    trace s' = (trace s ++ [EvOpenAI (PyStr key) kw; EvModelsList c])%list.
Proof.
  rewrite init_unfold. cbv zeta. split.
  - destruct (kw !! "api_key") as [v|] eqn:Hkw.
    { rewrite (dict_in_Some _ _ _ Hkw). by destruct (negb (truthy _)). }
    rewrite (resolve_API_KEY_environ _ _ Hkw), (dict_in_None _ _ Hkw).
    unfold environ_get.
    destruct (environ env !! "OPENAI_API_KEY") as [key|] eqn:Henv; [|intros [=]].
    destruct key as [|ch key]; [intros [=]|]. simpl.
    destruct (OpenAI env _ _ kw) as [c|e] eqn:HO; [|intros [=]].
    destruct (models_list env _ c) as [ms|e] eqn:HM; [|intros [=]].
    intros [= <-]. exists (String ch key), c, ms.
    repeat split; try done. simpl. by rewrite <- app_assoc.
  - intros (key & c & ms & Hkw & Henv & Hkey & HO & HM & Hself & Hheap & Htrace).
    rewrite (resolve_API_KEY_environ _ _ Hkw), (dict_in_None _ _ Hkw).
    unfold environ_get. rewrite Henv.
    destruct key as [|ch key]; [done|]. simpl. simpl in HO, HM. rewrite HO, HM.
    f_equal. destruct s' as [o h t]. simpl in *. subst.
    unfold with_self, log. simpl. by rewrite <- app_assoc.
Qed.

(** X5. A provider failure that is no [AuthenticationError] (a rate limit,
    an API error) leaves [__init__] as it is, unwrapped, and the instance
    without attributes assigned. *)
Theorem init_other_provider_error_propagates env name kw s key e :
  kw !! "api_key" = None →
  environ env !! "OPENAI_API_KEY" = Some key →
  key ≠ "" →
  is_AuthenticationError e = false →
  (OpenAI env (trace s) (PyStr key) kw = Raise e ∨
   ∃ c, OpenAI env (trace s) (PyStr key) kw = Ok c ∧
        models_list env (trace s ++ [EvOpenAI (PyStr key) kw]) c = Raise e) →
  ∃ s', __init__ env name kw s = (Raise e, s') ∧ self s' = self s.
Proof.
  intros Hkw Henv Hkey He Hfail. rewrite init_unfold. cbv zeta.
  rewrite (resolve_API_KEY_environ _ _ Hkw), (dict_in_None _ _ Hkw).
  unfold environ_get. rewrite Henv. destruct key as [|ch key]; [done|]. simpl.
  unfold init_reraise.
  destruct Hfail as [HO | (c & HO & HM)]; simpl in *; rewrite HO, ?HM, He; eauto.
Qed.

Lemma init_other_provider_error_propagates_witness :
  ∃ s', __init__ Scenario2.env_rate_limited "test-model" ∅ (mk_state fresh ∅ [])
        = (Raise (new_exc RateLimitError "Rate limit reached"), s') ∧
        self s' = fresh.
Proof.
  apply (init_other_provider_error_propagates Scenario2.env_rate_limited "test-model" ∅
           (mk_state fresh ∅ []) "test-key").
  - reflexivity.
  - reflexivity.
  - discriminate.
  - reflexivity.
  - right. exists (ClientHandle 0). split; reflexivity.
Defined.

(** X6. However [__init__] fails, it has assigned no attribute and changed
    no object: the assignments come after the last statement that can
    raise. *)
Theorem init_failure_assigns_nothing env name kw s e s' :
  __init__ env name kw s = (Raise e, s') →
  self s' = self s ∧ heap s' = heap s.
Proof.
  rewrite init_unfold. cbv zeta.
  destruct (negb (truthy _)); [by intros [= <- <-]|].
  destruct (dict_in "api_key" kw); [by intros [= <- <-]|].
  destruct (OpenAI env _ _ kw) as [c|e0]; [|by intros [= <- <-]].
  destruct (models_list env _ c) as [ms|e0]; [intros [=] | by intros [= <- <-]].
Qed.

Lemma init_failure_assigns_nothing_witness :
  self (log (EvModelsList (ClientHandle 0))
          (log (EvOpenAI (PyStr "bad-key") ∅) (mk_state fresh ∅ []))) = fresh ∧
  heap (log (EvModelsList (ClientHandle 0))
          (log (EvOpenAI (PyStr "bad-key") ∅) (mk_state fresh ∅ []))) = ∅.
Proof.
  apply (init_failure_assigns_nothing Scenario.env_rejecting "test-model" ∅
           (mk_state fresh ∅ [])
           (Exc ValueError "Invalid OpenAI API key provided."
              (Some (new_exc AuthenticationError "Incorrect API key provided")))).
  vm_compute. reflexivity.
Defined.

(** ** configure, further *)

Lemma configure_keeps mv sp rt s :
  inv (same_outside_configuration s) (configure mv sp rt).
Proof.
  unfold configure. repeat inv_step; try apply inv_read;
    (apply inv_setter; unfold same_outside_configuration; simpl;
     intros s0 (?&?&?&?&?); eauto 10).
Qed.

Lemma same_outside_configuration_refl s : same_outside_configuration s s.
Proof. by repeat split. Qed.

Lemma configure_same_outside mv sp rt s r s' :
  configure mv sp rt s = (r, s') → same_outside_configuration s s'.
Proof.
  intros H. eapply (configure_keeps mv sp rt s s r s'); [|exact H].
  apply same_outside_configuration_refl.
Qed.

(** A returning [configure] found [models] and [model_name] bound. *)
Lemma configure_Ok_bound mv sp rt s r s' :
  configure mv sp rt s = (Ok r, s') →
  ∃ ms n, models (self s) = Some ms ∧ model_name (self s) = Some n.
Proof.
  destruct (models (self s)) as [ms|] eqn:Hms; destruct (model_name (self s)) as [n|] eqn:Hn;
    [by eauto|..];
    unfold configure, _check_client, hasattr, getattr, set_model_version,
      set_system_prompt, set_retriever, bind, ret, raise; simpl; rewrite ?Hms; simpl;
    repeat (case_match; simpl in *; rewrite ?Hms, ?Hn in *; simplify_eq/=); try done.
Qed.

Lemma isinstance_is_ref h rt :
  isinstance_BaseRetriever h rt = true → ∃ a, rt = PyRef a.
Proof. destruct rt; simpl; try discriminate. eauto. Qed.

(** When [configure] returns, and what it has done then. *)
Lemma configure_Ok_iff mv sp rt s ms n r s' :
  models (self s) = Some ms →
  model_name (self s) = Some n →
  configure mv sp rt s = (Ok r, s') ↔
    mv ≠ "" ∧ mv ∈ ms ∧
    (rt = PyNone ∨ isinstance_BaseRetriever (heap s) rt = true) ∧
    r = acknowledgment n mv (heap s) rt ∧
    s' = with_self (assign_all mv sp rt (self s)) s.
Proof.
  intros Hms Hn. rewrite (configure_unfold mv sp rt s ms n Hms Hn). split.
  - destruct (String.eqb_spec mv ""); [intros [=]|].
    destruct (bool_decide_reflect (mv ∈ ms)); simpl; [|intros [=]].
    destruct (is_not_None rt && negb (isinstance_BaseRetriever (heap s) rt)) eqn:Hc;
      intros [=]; subst. repeat split; auto.
    apply andb_false_iff in Hc as [Hc|Hc];
      [left; by destruct rt | right; by apply negb_false_iff].
  - intros (Hne & Hin & Hrt & -> & ->).
    destruct (String.eqb_spec mv ""); [done|].
    rewrite (bool_decide_eq_true_2 _ Hin). simpl.
    destruct Hrt as [-> | ->]; simpl; [reflexivity|].
    by rewrite andb_false_r.
Qed.

(** X7. On a constructed instance [configure] returns exactly when the
    model version is non-empty and listed and the retriever is [None] or
    an instance of [BaseRetriever]; it then has stored the three arguments
    and acknowledges with the version and the retriever's class name
    ([NoneType] for no retriever). *)
Theorem configure_returns_iff mv sp rt s ms n r s' :
  models (self s) = Some ms →
  model_name (self s) = Some n →
  configure mv sp rt s = (Ok r, s') ↔
    mv ≠ "" ∧ mv ∈ ms ∧
    (rt = PyNone ∨ isinstance_BaseRetriever (heap s) rt = true) ∧
    r = acknowledgment n mv (heap s) rt ∧
    s' = with_self (assign_all mv sp rt (self s)) s.
Proof. apply configure_Ok_iff. Qed.

Lemma configure_returns_iff_witness :
  configure "gpt-4" (PyStr "sp") (PyRef 0) (mk_state Scenario.constructed Scenario.heap0 [])
  = (Ok (acknowledgment "test-model" "gpt-4" Scenario.heap0 (PyRef 0)),
     with_self (assign_all "gpt-4" (PyStr "sp") (PyRef 0) Scenario.constructed)
       (mk_state Scenario.constructed Scenario.heap0 [])) ↔
    "gpt-4" ≠ "" ∧ "gpt-4" ∈ ["gpt-3.5-turbo"; "gpt-4"] ∧
    (PyRef 0 = PyNone ∨ isinstance_BaseRetriever Scenario.heap0 (PyRef 0) = true) ∧
    acknowledgment "test-model" "gpt-4" Scenario.heap0 (PyRef 0)
    = acknowledgment "test-model" "gpt-4" Scenario.heap0 (PyRef 0) ∧
    with_self (assign_all "gpt-4" (PyStr "sp") (PyRef 0) Scenario.constructed)
      (mk_state Scenario.constructed Scenario.heap0 [])
    = with_self (assign_all "gpt-4" (PyStr "sp") (PyRef 0) Scenario.constructed)
        (mk_state Scenario.constructed Scenario.heap0 []).
Proof.
  apply (configure_returns_iff "gpt-4" (PyStr "sp") (PyRef 0)
           (mk_state Scenario.constructed Scenario.heap0 [])
           ["gpt-3.5-turbo"; "gpt-4"] "test-model"); reflexivity.
Defined.

(** X8. The last [configure] wins: when a call returns, the result and the
    instance are those the same call would have given had the call before
    it, returned or failed, never been made. *)
Theorem configure_last_call_wins mv1 sp1 rt1 mv2 sp2 rt2 s r1 s1 r2 s2 :
  configure mv1 sp1 rt1 s = (r1, s1) →
  configure mv2 sp2 rt2 s1 = (Ok r2, s2) →
  configure mv2 sp2 rt2 s = (Ok r2, s2).
Proof.
  intros H1 H2.
  destruct (configure_same_outside _ _ _ _ _ _ H1) as (Hc & Hm & Hn & Hh & Ht).
  destruct (configure_Ok_bound _ _ _ _ _ _ H2) as (ms & n & Hms & Hname).
  apply (configure_Ok_iff mv2 sp2 rt2 s1 ms n r2 s2 Hms Hname) in H2
    as (Hne & Hin & Hrt & -> & ->).
  rewrite Hm in Hms. rewrite Hn in Hname.
  apply (configure_Ok_iff mv2 sp2 rt2 s ms n _ _ Hms Hname).
  rewrite Hh in Hrt. repeat split; auto.
  - by rewrite Hh.
  - unfold with_self, assign_all. by rewrite Hc, Hm, Hn, Hh, Ht.
Qed.

Lemma configure_last_call_wins_witness :
  configure "gpt-4" PyNone PyNone (mk_state Scenario.constructed Scenario.heap0 [])
  = (Ok (acknowledgment "test-model" "gpt-4" Scenario.heap0 PyNone),
     mk_state (assign_all "gpt-4" PyNone PyNone Scenario.constructed) Scenario.heap0 []).
Proof.
  apply (configure_last_call_wins "gpt-3.5-turbo" (PyStr "sp") (PyRef 0)
           "gpt-4" PyNone PyNone
           (mk_state Scenario.constructed Scenario.heap0 [])
           (Ok (acknowledgment "test-model" "gpt-3.5-turbo" Scenario.heap0 (PyRef 0)))
           (mk_state Scenario.configured Scenario.heap0 []));
    vm_compute; reflexivity.
Defined.

(** X9. Whether it returns or raises, [configure] assigns nothing but
    [model_version], [system_prompt] and [retriever], changes no object and
    calls neither the provider nor the retriever. *)
Theorem configure_touches_configuration_only mv sp rt s r s' :
  configure mv sp rt s = (r, s') →
  client (self s') = client (self s) ∧
  models (self s') = models (self s) ∧
  model_name (self s') = model_name (self s) ∧
  heap s' = heap s ∧
  trace s' = trace s.
Proof. apply configure_same_outside. Qed.

Lemma configure_touches_configuration_only_witness :
  client Scenario.configured = client Scenario.constructed ∧
  models Scenario.configured = models Scenario.constructed ∧
  model_name Scenario.configured = model_name Scenario.constructed ∧
  Scenario.heap0 = Scenario.heap0 ∧
  @nil event = [].
Proof.
  apply (configure_touches_configuration_only "gpt-3.5-turbo" (PyStr "sp") (PyRef 0)
           (mk_state Scenario.constructed Scenario.heap0 [])
           (Ok (acknowledgment "test-model" "gpt-3.5-turbo" Scenario.heap0 (PyRef 0)))
           (mk_state Scenario.configured Scenario.heap0 [])).
  vm_compute. reflexivity.
Defined.

(** ** The life of an instance, further *)

Lemma configure_well_configured mv sp rt s r s' :
  configure mv sp rt s = (r, s') →
  initialized (self s) → well_configured (self s) → well_configured (self s').
Proof.
  intros H (_ & [ms Hms] & [n Hn] & _) (ms' & Hms' & Hv & Hr).
  rewrite Hms in Hms'. injection Hms' as <-.
  rewrite (configure_unfold mv sp rt s ms n Hms Hn) in H.
  destruct (String.eqb_spec mv "").
  { injection H as <- <-. by exists ms. }
  destruct (bool_decide_reflect (mv ∈ ms)); simpl in H.
  2:{ injection H as <- <-. by exists ms. }
  destruct (is_not_None rt && negb (isinstance_BaseRetriever (heap s) rt)) eqn:Hc;
    injection H as <- <-; exists ms; simpl; (split; [done|]);
    (split; [right; by exists mv|]).
  - exact Hr.
  - apply andb_false_iff in Hc as [Hc|Hc].
    + left. by destruct rt.
    + right. apply negb_false_iff in Hc.
      destruct (isinstance_is_ref _ _ Hc) as [a ->]. eauto.
Qed.

Lemma call_well_configured env s s' :
  call env s s' →
  initialized (self s) → well_configured (self s) → well_configured (self s').
Proof.
  destruct 1 as [mv sp rt s r s' H | s r s' H | up rag mt kw s r s' H | s h]; intros HI HW.
  - by eapply configure_well_configured.
  - by rewrite (embed_self _ _ _ H).
  - by rewrite (generate_self _ _ _ _ _ _ _ _ H).
  - exact HW.
Qed.

Lemma calls_well_configured env s s' :
  rtc (call env) s s' →
  initialized (self s) → well_configured (self s) → well_configured (self s').
Proof.
  induction 1 as [|s s1 s' Hstep _ IH]; [done|]. intros HI HW.
  apply IH; [by eapply call_initialized | by eapply call_well_configured].
Qed.

(** X10. Along the whole life of a constructed instance, whatever is called
    and however the calls end, the stored model version is [None] or a
    non-empty id of the provider's list, and the stored retriever is [None]
    or an object: a failed [configure] cannot leave a rejected value
    behind. *)
Theorem stored_configuration_stays_acceptable env name kw h t s s' :
  __init__ env name kw (mk_state fresh h t) = (Ok tt, s) →
  rtc (call env) s s' →
  well_configured (self s').
Proof.
  intros Hinit Hcalls.
  destruct (init_assigns _ _ _ _ _ Hinit) as (c & ms & Hs).
  apply (calls_well_configured env s s' Hcalls); rewrite Hs.
  - unfold initialized. simpl. eauto 10.
  - exists ms. simpl. auto.
Qed.

Lemma stored_configuration_stays_acceptable_witness :
  well_configured
    (self (mk_state (assign_version_prompt "gpt-4" (PyStr "other") Scenario.constructed)
             ∅ [EvOpenAI (PyStr "test-key") ∅; EvModelsList (ClientHandle 0)])).
Proof.
  apply (stored_configuration_stays_acceptable Scenario.env_ok "test-model" ∅ ∅ []
           (mk_state Scenario.constructed ∅
              [EvOpenAI (PyStr "test-key") ∅; EvModelsList (ClientHandle 0)])).
  - vm_compute. reflexivity.
  - apply rtc_once.
    apply (call_configure Scenario.env_ok "gpt-4" (PyStr "other") (PyStr "not a retriever") _
             (Raise (new_exc TypeError "Retriever must be an instance of BaseRetriever."))).
    vm_compute. reflexivity.
Defined.

Lemma call_keeps_construction env s s' :
  call env s s' →
  client (self s') = client (self s) ∧
  models (self s') = models (self s) ∧
  model_name (self s') = model_name (self s).
Proof.
  destruct 1 as [mv sp rt s r s' H | s r s' H | up rag mt kw s r s' H | s h].
  - destruct (configure_same_outside _ _ _ _ _ _ H) as (?&?&?&_). auto.
  - by rewrite (embed_self _ _ _ H).
  - by rewrite (generate_self _ _ _ _ _ _ _ _ H).
  - done.
Qed.

(** X11. What [__init__] assigned stays: no sequence of [configure], [embed]
    and [generate] calls changes [client], [models] or [model_name]. *)
Theorem construction_attributes_never_change env s s' :
  rtc (call env) s s' →
  client (self s') = client (self s) ∧
  models (self s') = models (self s) ∧
  model_name (self s') = model_name (self s).
Proof.
  induction 1 as [|s s1 s' Hstep _ IH]; [done|].
  destruct (call_keeps_construction _ _ _ Hstep) as (Hc & Hm & Hn).
  destruct IH as (Hc' & Hm' & Hn'). by rewrite Hc', Hm', Hn'.
Qed.

Lemma construction_attributes_never_change_witness :
  client Scenario.configured = client Scenario.constructed ∧
  models Scenario.configured = models Scenario.constructed ∧
  model_name Scenario.configured = model_name Scenario.constructed.
Proof.
  apply (construction_attributes_never_change Scenario.env_ok
           (mk_state Scenario.constructed Scenario.heap0 [])
           (mk_state Scenario.configured Scenario.heap0 [])).
  apply rtc_once.
  apply (call_configure Scenario.env_ok "gpt-3.5-turbo" (PyStr "sp") (PyRef 0) _
           (Ok (acknowledgment "test-model" "gpt-3.5-turbo" Scenario.heap0 (PyRef 0)))).
  vm_compute. reflexivity.
Defined.

(** ** embed, further *)

(** The two checks either pass or raise their [ValueError]; they change
    nothing. *)
Lemma check_client_cases s :
  _check_client s = (Ok tt, s) ∨
  _check_client s = (Raise (new_exc ValueError "OpenAI client is not initialized."), s).
Proof.
  unfold _check_client, hasattr, bind, ret, raise. simpl.
  destruct (negb _ && negb _); auto.
Qed.

Lemma check_retriever_cases s :
  _check_retriever s = (Ok tt, s) ∨
  _check_retriever s
  = (Raise (new_exc ValueError
              "Retriever is not set. Please configure the retriever before embedding."), s).
Proof.
  unfold _check_retriever, hasattr, bind, ret, raise. simpl.
  destruct (negb _); auto.
Qed.

(** [embed] in direct style, once the retriever is an object with an
    [embed] method that answers [r]. *)
Lemma embed_unfold s c a o f r st' :
  client (self s) = Some c →
  retriever (self s) = Some (PyRef a) →
  heap s !! a = Some o →
  cls_embed (ob_class o) = Some f →
  f c (ob_state o) = (r, st') →
  embed s =
    (match r with
     | Ok response =>
         match response !! "data", model_name (self s) with
         | Some data, Some n =>
             Ok {| emb_status := true;
                   emb_message := "Embeddings generated successfully.";
                   emb_embeddings := data;
                   emb_model := n |}
         | Some _, None =>
             Raise (new_exc EmbeddingError
                      "Failed to generate embeddings: 'OpenAILLM' object has no attribute 'model_name'")
         | None, _ =>
             Raise (new_exc EmbeddingError "Failed to generate embeddings: 'data'")
         end
     | Raise e =>
         Raise (if is_Exception e
                then new_exc EmbeddingError ("Failed to generate embeddings: " +:+ exc_str e)
                else e)
     end,
     after_call a o st' (EvEmbed a c) s).
Proof.
  intros Hc Hr Ho Hf Hrun. unfold embed.
  mstep (check_client_ok s c Hc).
  mstep (check_retriever_ok s _ Hr).
  unfold try_except.
  mstep (getattr_Some "retriever" retriever s _ Hr).
  pose proof (invoke_ref a "embed" cls_embed (getattr "client" client) EvEmbed
                s o f c s r st' Ho Hf (getattr_Some "client" client s c Hc) Hrun) as Hinv.
  destruct r as [response|e]; mstep Hinv; [|by destruct (is_Exception e)].
  unfold subscript, bind, getattr, ret, raise, after_call, with_heap, log. simpl.
  destruct (response !! "data") as [data|]; simpl; [|reflexivity].
  destruct (model_name (self s)); reflexivity.
Qed.

(** X12. An exception of the retriever's [embed] that is an [Exception]
    never leaves [embed] as it is: it comes out as an [EmbeddingError] that
    carries the description of the original after "Failed to generate
    embeddings: " and has no cause attached.  An exception that is no
    [Exception] ([KeyboardInterrupt], [SystemExit]) is not caught and leaves
    [embed] unchanged.  Either way what the retriever did to its own state
    before failing stays. *)
Theorem embed_wraps_retriever_error s c a o f e st' :
  client (self s) = Some c →
  retriever (self s) = Some (PyRef a) →
  heap s !! a = Some o →
  cls_embed (ob_class o) = Some f →
  f c (ob_state o) = (Raise e, st') →
  embed s
  = (Raise (if is_Exception e
            then Exc EmbeddingError ("Failed to generate embeddings: " +:+ exc_str e) None
            else e),
     after_call a o st' (EvEmbed a c) s).
Proof.
  intros Hc Hr Ho Hf Hrun. by rewrite (embed_unfold s c a o f _ st' Hc Hr Ho Hf Hrun).
Qed.

Lemma embed_wraps_retriever_error_witness :
  embed (mk_state Scenario.configured
           (Scenario2.heap_of Scenario2.FailingRetriever PyNone) [])
  = (Raise (if is_Exception (new_exc (OtherError "ConnectionError") "index unreachable")
            then Exc EmbeddingError
                   ("Failed to generate embeddings: "
                    +:+ exc_str (new_exc (OtherError "ConnectionError") "index unreachable"))
                   None
            else new_exc (OtherError "ConnectionError") "index unreachable"),
     after_call 0%nat {| ob_class := Scenario2.FailingRetriever; ob_state := PyNone |}
       (PyStr "tried") (EvEmbed 0%nat (ClientHandle 0))
       (mk_state Scenario.configured
          (Scenario2.heap_of Scenario2.FailingRetriever PyNone) [])).
Proof.
  apply (embed_wraps_retriever_error
           (mk_state Scenario.configured
              (Scenario2.heap_of Scenario2.FailingRetriever PyNone) [])
           (ClientHandle 0) 0%nat
           {| ob_class := Scenario2.FailingRetriever; ob_state := PyNone |}
           (λ _ _, (Raise (new_exc (OtherError "ConnectionError") "index unreachable"),
                    PyStr "tried"))); reflexivity.
Defined.

(** X13. When the retriever's [embed] answers with a dictionary holding
    [data], [embed] returns that payload together with the wrapper's
    [model_name]; the retriever was called once, with the wrapper's own
    client, and holds its new state. *)
Theorem embed_returns_payload s c a o f response data st' n :
  client (self s) = Some c →
  retriever (self s) = Some (PyRef a) →
  heap s !! a = Some o →
  cls_embed (ob_class o) = Some f →
  f c (ob_state o) = (Ok response, st') →
  response !! "data" = Some data →
  model_name (self s) = Some n →
  ∃ s',
    embed s = (Ok {| emb_status := true;
                     emb_message := "Embeddings generated successfully.";
                     emb_embeddings := data;
                     emb_model := n |}, s') ∧
    self s' = self s ∧
    trace s' = (trace s ++ [EvEmbed a c])%list ∧
    heap s' = <[a := {| ob_class := ob_class o; ob_state := st' |}]> (heap s).
Proof.
  intros Hc Hr Ho Hf Hrun Hdata Hn.
  rewrite (embed_unfold s c a o f _ st' Hc Hr Ho Hf Hrun), Hdata, Hn.
  eexists. split; [reflexivity|]. by repeat split.
Qed.

Lemma embed_returns_payload_witness :
  ∃ s',
    embed (mk_state Scenario.configured Scenario.heap0 [])
    = (Ok {| emb_status := true;
             emb_message := "Embeddings generated successfully.";
             emb_embeddings := PyList [PyInt 1];
             emb_model := "test-model" |}, s') ∧
    self s' = Scenario.configured ∧
    trace s' = ([] ++ [EvEmbed 0%nat (ClientHandle 0)])%list ∧
    heap s' = <[0%nat := {| ob_class := Scenario.StubRetriever; ob_state := PyBool true |}]>
                Scenario.heap0.
Proof.
  apply (embed_returns_payload (mk_state Scenario.configured Scenario.heap0 [])
           (ClientHandle 0) 0%nat
           {| ob_class := Scenario.StubRetriever; ob_state := PyBool false |}
           (λ _ _, (Ok {[ "data" := PyList [PyInt 1] ]}, PyBool true))
           {[ "data" := PyList [PyInt 1] ]}); reflexivity.
Defined.

(** X14. An answer of the retriever without the key [data] makes [embed]
    raise an [EmbeddingError] (wrapping the [KeyError]), although the
    retriever has done its work and keeps its new state. *)
Theorem embed_answer_without_data s c a o f response st' :
  client (self s) = Some c →
  retriever (self s) = Some (PyRef a) →
  heap s !! a = Some o →
  cls_embed (ob_class o) = Some f →
  f c (ob_state o) = (Ok response, st') →
  response !! "data" = None →
  ∃ s',
    embed s = (Raise (new_exc EmbeddingError "Failed to generate embeddings: 'data'"), s') ∧
    heap s' !! a = Some {| ob_class := ob_class o; ob_state := st' |} ∧
    trace s' = (trace s ++ [EvEmbed a c])%list.
Proof.
  intros Hc Hr Ho Hf Hrun Hdata.
  rewrite (embed_unfold s c a o f _ st' Hc Hr Ho Hf Hrun), Hdata.
  eexists. split; [reflexivity|]. split; [apply lookup_insert_eq | reflexivity].
Qed.

Lemma embed_answer_without_data_witness :
  ∃ s',
    embed (mk_state Scenario.configured
             (Scenario2.heap_of Scenario2.NoDataRetriever (PyBool false)) [])
    = (Raise (new_exc EmbeddingError "Failed to generate embeddings: 'data'"), s') ∧
    heap s' !! 0%nat
    = Some {| ob_class := Scenario2.NoDataRetriever; ob_state := PyBool true |} ∧
    trace s' = ([] ++ [EvEmbed 0%nat (ClientHandle 0)])%list.
Proof.
  apply (embed_answer_without_data
           (mk_state Scenario.configured
              (Scenario2.heap_of Scenario2.NoDataRetriever (PyBool false)) [])
           (ClientHandle 0) 0%nat
           {| ob_class := Scenario2.NoDataRetriever; ob_state := PyBool false |}
           (λ _ _, (Ok {[ "vectors" := PyList [] ]}, PyBool true))
           {[ "vectors" := PyList [] ]}); reflexivity.
Defined.

(** X15. What [embed] raises is the [ValueError] of one of its two checks
    (then nothing has happened), or an [EmbeddingError] whose message starts
    with "Failed to generate embeddings: " (a missing method, a missing
    key and a failing retriever alike), or else an exception that is no
    [Exception], which only the retriever's [embed] can have raised: no
    [Exception] of another class leaves [embed]. *)
Theorem embed_raises_own_errors_or_no_Exception s e s' :
  embed s = (Raise e, s') →
  (exc_cls e = ValueError ∧ s' = s) ∨
  (exc_cls e = EmbeddingError ∧
   ∃ description, exc_str e = "Failed to generate embeddings: " +:+ description) ∨
  (is_Exception e = false ∧
   ∃ a c, retriever (self s) = Some (PyRef a) ∧ client (self s) = Some c ∧
          trace s' = (trace s ++ [EvEmbed a c])%list).
Proof.
  unfold embed.
  destruct (check_client_cases s) as [H|H]; mstep H; [|intros [= <- <-]; by left].
  destruct (check_retriever_cases s) as [H'|H']; mstep H'; [|intros [= <- <-]; by left].
  unfold try_except. destruct (bind _ _ s) as [[resp|e0] s1] eqn:E; [intros [=]|].
  destruct (is_Exception e0) eqn:Hex.
  { unfold raise. intros [= <- <-]. right. left. split; [reflexivity|]. by eexists. }
  intros [= <- <-]. right. right. split; [exact Hex|].
  revert E. unfold bind, getattr, invoke, subscript, ret, raise.
  destruct (retriever (self s)) as [v|] eqn:Hr; [|intros [= <- <-]; discriminate Hex].
  destruct v as [| | | | |a]; try (intros [= <- <-]; discriminate Hex).
  destruct (heap s !! a) as [o|]; [|intros [= <- <-]; discriminate Hex].
  destruct (cls_embed (ob_class o)) as [f|]; [|intros [= <- <-]; discriminate Hex].
  destruct (client (self s)) as [c|] eqn:Hc; [|intros [= <- <-]; discriminate Hex].
  destruct (f c (ob_state o)) as [[response|e1] st'].
  - destruct (response !! "data"); [|intros [= <- <-]; discriminate Hex].
    simpl. destruct (model_name (self s)); intros [= <- <-]. discriminate Hex.
  - intros [= <- <-]. by exists a, c.
Qed.

Lemma embed_raises_own_errors_or_no_Exception_witness :
  (exc_cls (new_exc (BaseExceptionOnly "KeyboardInterrupt") "stop") = ValueError ∧
   Scenario2.after_interrupt
   = mk_state Scenario.configured
       (Scenario2.heap_of Scenario2.InterruptedRetriever PyNone) []) ∨
  (exc_cls (new_exc (BaseExceptionOnly "KeyboardInterrupt") "stop") = EmbeddingError ∧
   ∃ description,
     exc_str (new_exc (BaseExceptionOnly "KeyboardInterrupt") "stop")
     = "Failed to generate embeddings: " +:+ description) ∨
  (is_Exception (new_exc (BaseExceptionOnly "KeyboardInterrupt") "stop") = false ∧
   ∃ a c,
     retriever (self (mk_state Scenario.configured
                        (Scenario2.heap_of Scenario2.InterruptedRetriever PyNone) []))
     = Some (PyRef a) ∧
     client (self (mk_state Scenario.configured
                     (Scenario2.heap_of Scenario2.InterruptedRetriever PyNone) []))
     = Some c ∧
     trace Scenario2.after_interrupt
     = (trace (mk_state Scenario.configured
                 (Scenario2.heap_of Scenario2.InterruptedRetriever PyNone) [])
        ++ [EvEmbed a c])%list).
Proof.
  apply (embed_raises_own_errors_or_no_Exception
           (mk_state Scenario.configured
              (Scenario2.heap_of Scenario2.InterruptedRetriever PyNone) [])).
  vm_compute. reflexivity.
Defined.

(** The same instance with a retriever whose [embed] fails with an
    [Exception]: the [EmbeddingError] case. *)
Example embed_wraps_ConnectionError :
  embed (mk_state Scenario.configured
           (Scenario2.heap_of Scenario2.FailingRetriever PyNone) [])
  = (Raise (new_exc EmbeddingError "Failed to generate embeddings: index unreachable"),
     mk_state Scenario.configured
       (Scenario2.heap_of Scenario2.FailingRetriever (PyStr "tried"))
       [EvEmbed 0%nat (ClientHandle 0)]).
Proof. vm_compute. reflexivity. Qed.

(** ** Computations without effect, computations that never return *)

Lemma pure_bind {A B} (m : M A) (k : A → M B) :
  pure m → (∀ a, pure (k a)) → pure (bind m k).
Proof.
  intros Hm Hk s r s'. unfold bind.
  destruct (m s) as [[a|e] s1] eqn:E; apply Hm in E as ->.
  - apply Hk.
  - by intros [= <- <-].
Qed.

Lemma pure_ret {A} (a : A) : pure (ret a).
Proof. by intros s r s' [= <- <-]. Qed.

Lemma pure_raise {A} e : pure (raise (A:=A) e).
Proof. by intros s r s' [= <- <-]. Qed.

Lemma pure_getattr {A} name (proj : OpenAILLM → option A) : pure (getattr name proj).
Proof. intros s r s'. unfold getattr. destruct (proj (self s)); by intros [= <- <-]. Qed.

Lemma pure_system_content kw : pure (system_content kw).
Proof.
  unfold system_content. destruct (negb _); [apply pure_getattr | apply pure_ret].
Qed.

Lemma pure_check_client : pure _check_client.
Proof. intros s r s'. destruct (check_client_cases s) as [-> | ->]; by intros [= <- <-]. Qed.

Lemma pure_check_retriever : pure _check_retriever.
Proof. intros s r s'. destruct (check_retriever_cases s) as [-> | ->]; by intros [= <- <-]. Qed.

Lemma never_returns_bind_l {A B} (m : M A) (k : A → M B) :
  never_returns m → never_returns (bind m k).
Proof.
  intros Hm s b s'. unfold bind. destruct (m s) as [[a|e] s1] eqn:E; [|done].
  by apply Hm in E.
Qed.

Lemma never_returns_bind_r {A B} (m : M A) (k : A → M B) :
  (∀ a, never_returns (k a)) → never_returns (bind m k).
Proof.
  intros Hk s b s'. unfold bind. destruct (m s) as [[a|e] s1]; [apply Hk | done].
Qed.

(** ** generate, further *)

Lemma clash_dict_in kw :
  clash kw →
  dict_in "model" kw || dict_in "messages" kw || dict_in "max_tokens" kw = true.
Proof.
  unfold dict_in. intros [H | [H | H]]; rewrite (bool_decide_eq_true_2 _ H);
    by rewrite ?orb_true_r.
Qed.

Lemma chat_create_clash env c model messages mt kw :
  clash kw →
  chat_create env c model messages mt kw
  = raise (new_exc TypeError "got multiple values for keyword argument").
Proof. intros H. unfold chat_create. by rewrite (clash_dict_in _ H). Qed.

(** What one method call on an object can do to the state: nothing, and
    then it raised, or the call was made. *)
Lemma invoke_cases {A X} v name (sel : pyclass → option (X → pyval → pyres A * pyval))
    (args : M X) ev s r s' :
  pure args →
  invoke v name sel args ev s = (r, s') →
  (s' = s ∧ ∃ e, r = Raise e) ∨
  ∃ a o x st', v = PyRef a ∧ heap s !! a = Some o ∧ args s = (Ok x, s) ∧
               s' = after_call a o st' (ev a x) s.
Proof.
  intros Hargs. unfold invoke.
  destruct v as [| | | | |a]; try (intros [= <- <-]; left; by eauto).
  destruct (heap s !! a) as [o|] eqn:Ho; [|intros [= <- <-]; left; by eauto].
  destruct (sel (ob_class o)) as [f|]; [|intros [= <- <-]; left; by eauto].
  destruct (args s) as [[x|e] s1] eqn:E; pose proof (Hargs _ _ _ E) as ->.
  - destruct (f x (ob_state o)) as [r0 st']. intros [= <- <-].
    right. by exists a, o, x, st'.
  - intros [= <- <-]. left. by eauto.
Qed.

Lemma chat_create_cases env c model messages mt kw s r s' :
  chat_create env c model messages mt kw s = (r, s') →
  s' = s ∨
  s' = log (EvChatCreate c {| req_model := model; req_messages := messages;
                              req_max_tokens := mt; req_kwargs := kw |}) s.
Proof.
  unfold chat_create, raise. destruct (_ || _); intros [= <- <-]; auto.
Qed.

Lemma generate_return_pure (resp : Response) :
  pure (bind (getattr "model_name" model_name)
          (λ n, ret {| gen_status := true;
                       gen_message := "Response generated successfully.";
                       gen_choices := map message_content (choices resp);
                       gen_model := n;
                       gen_usage := usage resp |})).
Proof. apply pure_bind; [apply pure_getattr | intros; apply pure_ret]. Qed.

(** X16. An extra option named [model], [messages] or [max_tokens] makes
    every [generate] call fail: the call never returns and no request
    reaches the provider, on any instance and in either mode. *)
Theorem generate_colliding_option_never_sends env up rag mt kw s :
  clash kw →
  (∃ e, (generate env up rag mt kw s).1 = Raise e) ∧
  ∃ new, trace (generate env up rag mt kw s).2 = (trace s ++ new)%list ∧
         Forall (λ ev, ¬ is_request ev) new.
Proof.
  intros Hkw. split.
  - assert (Hnever : never_returns (generate env up rag mt kw)).
    { unfold generate. apply never_returns_bind_r. intros _.
      apply never_returns_bind_l. destruct rag;
        repeat (apply never_returns_bind_r; intros ?);
        rewrite (chat_create_clash _ _ _ _ _ _ Hkw); by intros ? ? ?. }
    destruct (generate env up rag mt kw s) as [[out|e] s'] eqn:E; [|by eexists].
    by apply Hnever in E.
  - assert (Hinv : inv (extends_with (λ ev, ¬ is_request ev) (trace s))
                       (generate env up rag mt kw)).
    { unfold generate.
      repeat first [ rewrite (chat_create_clash _ _ _ _ _ _ Hkw) | inv_step ].
      - intros. apply extends_with_heap, extends_with_log; [|done]. by intros [].
      - intros. apply extends_with_heap, extends_with_log; [|done]. by intros []. }
    destruct (generate env up rag mt kw s) as [r s'] eqn:Hrun.
    apply (Hinv s r s'); [|exact Hrun].
    exists []. split; [by rewrite app_nil_r | constructor].
Qed.

Lemma generate_colliding_option_never_sends_witness :
  (∃ e, (generate Scenario.env_ok "hi" false 10 {[ "model" := PyStr "gpt-4" ]}
           (mk_state Scenario.configured Scenario.heap0 [])).1 = Raise e) ∧
  ∃ new, trace (generate Scenario.env_ok "hi" false 10 {[ "model" := PyStr "gpt-4" ]}
                  (mk_state Scenario.configured Scenario.heap0 [])).2 = ([] ++ new)%list ∧
         Forall (λ ev, ¬ is_request ev) new.
Proof.
  apply (generate_colliding_option_never_sends Scenario.env_ok "hi" false 10
           {[ "model" := PyStr "gpt-4" ]} (mk_state Scenario.configured Scenario.heap0 [])).
  left. by exists (PyStr "gpt-4").
Defined.

(** X17. Without retrieval, an exception of the provider leaves [generate]
    as it is (unlike [embed], nothing is wrapped), after the one request
    that caused it. *)
Theorem generate_provider_error_propagates env up mt kw s c v stored n e :
  client (self s) = Some c →
  model_version (self s) = Some v →
  system_prompt (self s) = Some stored →
  model_name (self s) = Some n →
  no_clash kw →
  chat_completions_create env (trace s) c
    {| req_model := v;
       req_messages := [system_message (chosen_system_prompt kw stored); user_message up];
       req_max_tokens := mt; req_kwargs := kw |} = Raise e →
  ∃ s', generate env up false mt kw s = (Raise e, s') ∧
        self s' = self s ∧ heap s' = heap s ∧
        ∃ req, trace s' = (trace s ++ [EvChatCreate c req])%list.
Proof.
  intros Hc Hv Hsp Hn Hkw He.
  rewrite (generate_plain_unfold env up mt kw s c v stored n Hc Hv Hsp Hn Hkw).
  cbv zeta. rewrite He. eexists. split; [reflexivity|]. repeat split. by eexists.
Qed.

Lemma generate_provider_error_propagates_witness :
  ∃ s', generate Scenario2.env_rate_limited "hi" false 10 ∅
          (mk_state Scenario.configured Scenario.heap0 [])
        = (Raise (new_exc RateLimitError "Rate limit reached"), s') ∧
        self s' = Scenario.configured ∧ heap s' = Scenario.heap0 ∧
        ∃ req, trace s' = ([] ++ [EvChatCreate (ClientHandle 0) req])%list.
Proof.
  apply (generate_provider_error_propagates Scenario2.env_rate_limited "hi" 10 ∅
           (mk_state Scenario.configured Scenario.heap0 []) (ClientHandle 0)
           (PyStr "gpt-3.5-turbo") (PyStr "sp") "test-model"); try reflexivity.
  repeat split; reflexivity.
Defined.

(** X18. With retrieval, an exception of the retriever's [retrieve] leaves
    [generate] as it is, and no request is sent.  This is what happens with
    a retriever class that inherits [retrieve] from [BaseRetriever]
    unchanged: the call ends in its [NotImplementedError]. *)
Theorem generate_retrieve_error_propagates env up mt kw s c v stored a o hf b st1 rf e st2 :
  client (self s) = Some c →
  model_version (self s) = Some v →
  system_prompt (self s) = Some stored →
  retriever (self s) = Some (PyRef a) →
  heap s !! a = Some o →
  cls_has_embedding (ob_class o) = Some hf →
  hf (ob_state o) = (Ok b, st1) →
  truthy b = true →
  resolve_retrieve (ob_class o) = Some rf →
  rf up st1 = (Raise e, st2) →
  ∃ s', generate env up true mt kw s = (Raise e, s') ∧
        trace s' = (trace s ++ [EvHasEmbedding a; EvRetrieve a up])%list.
Proof.
  intros Hc Hv Hsp Hr Ho Hf Hb Htrue Hrf Hfail.
  eexists. split.
  - unfold generate.
    mstep (check_client_ok s c Hc).
    unfold bind at 1.
    mstep (check_retriever_ok s _ Hr).
    pose proof (check_embeddings_run s a o hf b st1 Hr Ho Hf Hb) as Hemb.
    rewrite Htrue in Hemb. mstep Hemb.
    set (s1 := after_call a o st1 (EvHasEmbedding a) s).
    mstep (getattr_Some "client" client s1 c Hc).
    mstep (getattr_Some "model_version" model_version s1 v Hv).
    mstep (system_content_bound kw s1 stored Hsp).
    mstep (getattr_Some "retriever" retriever s1 _ Hr).
    assert (Ho1 : heap s1 !! a = Some {| ob_class := ob_class o; ob_state := st1 |})
      by apply lookup_insert_eq.
    mstep (invoke_ref a "retrieve" resolve_retrieve (ret up) EvRetrieve s1 _ rf up s1
             (Raise e) st2 Ho1 Hrf eq_refl Hfail).
    reflexivity.
  - simpl. by rewrite <- app_assoc.
Qed.

Lemma generate_retrieve_error_propagates_witness :
  ∃ s', generate Scenario.env_ok "hi" true 10 ∅
          (mk_state Scenario.configured
             (Scenario2.heap_of Scenario2.FailingRetriever PyNone) [])
        = (Raise (Exc NotImplementedError "Subclasses must implement this method." None), s') ∧
        trace s' = ([] ++ [EvHasEmbedding 0%nat; EvRetrieve 0%nat "hi"])%list.
Proof.
  apply (generate_retrieve_error_propagates Scenario.env_ok "hi" 10 ∅
           (mk_state Scenario.configured
              (Scenario2.heap_of Scenario2.FailingRetriever PyNone) [])
           (ClientHandle 0) (PyStr "gpt-3.5-turbo") (PyStr "sp") 0%nat
           {| ob_class := Scenario2.FailingRetriever; ob_state := PyNone |}
           (λ st, (Ok (PyBool true), st)) (PyBool true) PyNone
           BaseRetriever_retrieve
           (Exc NotImplementedError "Subclasses must implement this method." None) PyNone);
    reflexivity.
Defined.

(** X19. An object of the class [BaseRetriever] itself is accepted by
    [configure], but the wrapper cannot work with it: [BaseRetriever] has
    neither [has_embedding] nor [embed], so [generate] with retrieval ends
    in an [AttributeError] and [embed] in an [EmbeddingError] about the
    missing method; neither reaches the provider. *)
Theorem BaseRetriever_instance_is_accepted_but_unusable env up mt kw s c a st :
  client (self s) = Some c →
  retriever (self s) = Some (PyRef a) →
  heap s !! a = Some {| ob_class := BaseRetriever; ob_state := st |} →
  isinstance_BaseRetriever (heap s) (PyRef a) = true ∧
  generate env up true mt kw s
  = (Raise (new_exc AttributeError
              "'BaseRetriever' object has no attribute 'has_embedding'"), s) ∧
  embed s
  = (Raise (new_exc EmbeddingError
              "Failed to generate embeddings: 'BaseRetriever' object has no attribute 'embed'"),
     s).
Proof.
  intros Hc Hr Ho. split; [|split].
  - simpl. by rewrite Ho.
  - unfold generate.
    mstep (check_client_ok s c Hc).
    unfold bind at 1.
    mstep (check_retriever_ok s _ Hr).
    assert (Hemb : _check_embeddings s
                   = (Raise (no_attribute "BaseRetriever" "has_embedding"), s)).
    { unfold _check_embeddings.
      mstep (check_retriever_ok s _ Hr).
      mstep (getattr_Some "retriever" retriever s _ Hr).
      unfold bind, invoke. simpl. by rewrite Ho. }
    mstep Hemb. reflexivity.
  - unfold embed.
    mstep (check_client_ok s c Hc).
    mstep (check_retriever_ok s _ Hr).
    unfold try_except.
    mstep (getattr_Some "retriever" retriever s _ Hr).
    unfold bind, invoke. simpl. by rewrite Ho.
Qed.

Lemma BaseRetriever_instance_is_accepted_but_unusable_witness :
  isinstance_BaseRetriever (Scenario2.heap_of BaseRetriever PyNone) (PyRef 0) = true ∧
  generate Scenario.env_ok "hi" true 10 ∅
    (mk_state Scenario.configured (Scenario2.heap_of BaseRetriever PyNone) [])
  = (Raise (new_exc AttributeError
              "'BaseRetriever' object has no attribute 'has_embedding'"),
     mk_state Scenario.configured (Scenario2.heap_of BaseRetriever PyNone) []) ∧
  embed (mk_state Scenario.configured (Scenario2.heap_of BaseRetriever PyNone) [])
  = (Raise (new_exc EmbeddingError
              "Failed to generate embeddings: 'BaseRetriever' object has no attribute 'embed'"),
     mk_state Scenario.configured (Scenario2.heap_of BaseRetriever PyNone) []).
Proof.
  apply (BaseRetriever_instance_is_accepted_but_unusable Scenario.env_ok "hi" 10 ∅
           (mk_state Scenario.configured (Scenario2.heap_of BaseRetriever PyNone) [])
           (ClientHandle 0) 0%nat PyNone); reflexivity.
Defined.

(** X20. Without retrieval [generate] leaves the instance and every object
    alone, the configured retriever included, and makes at most one call:
    the request to the provider, through the wrapper's own client and with
    the extra options as passed. *)
Theorem generate_plain_touches_nothing env up mt kw s r s' :
  generate env up false mt kw s = (r, s') →
  self s' = self s ∧ heap s' = heap s ∧
  (trace s' = trace s ∨
   ∃ c req, client (self s) = Some c ∧ req_kwargs req = kw ∧
            trace s' = (trace s ++ [EvChatCreate c req])%list).
Proof.
  unfold generate.
  destruct (check_client_cases s) as [H|H]; mstep H; [|intros [= <- <-]; auto].
  unfold bind at 1, bind at 1.
  destruct (getattr "client" client s) as [[c|e] s1] eqn:E1;
    pose proof (pure_getattr _ _ _ _ _ E1) as ->; [|intros [= <- <-]; auto].
  assert (Hc : client (self s) = Some c).
  { unfold getattr in E1. by destruct (client (self s)); simplify_eq. }
  unfold bind at 1.
  destruct (getattr "model_version" model_version s) as [[v|e] s1] eqn:E2;
    pose proof (pure_getattr _ _ _ _ _ E2) as ->; [|intros [= <- <-]; auto].
  unfold bind at 1.
  destruct (system_content kw s) as [[sys|e] s1] eqn:E3;
    pose proof (pure_system_content _ _ _ _ E3) as ->; [|intros [= <- <-]; auto].
  destruct (chat_create env c v _ mt kw s) as [[resp|e] s1] eqn:E4;
    apply chat_create_cases in E4 as [-> | ->].
  - intros E5. apply generate_return_pure in E5 as ->. auto.
  - intros E5. apply generate_return_pure in E5 as ->.
    repeat split. right. eexists c, _. repeat split; [exact Hc|reflexivity].
  - intros [= <- <-]. auto.
  - intros [= <- <-]. repeat split. right. eexists c, _. repeat split; [exact Hc|reflexivity].
Qed.

Lemma generate_plain_touches_nothing_witness :
  self (log (EvChatCreate (ClientHandle 0)
               {| req_model := PyStr "gpt-3.5-turbo";
                  req_messages := [system_message (PyStr "sp"); user_message "hi"];
                  req_max_tokens := 10; req_kwargs := ∅ |})
          (mk_state Scenario.configured Scenario.heap0 [])) = Scenario.configured ∧
  heap (log (EvChatCreate (ClientHandle 0)
               {| req_model := PyStr "gpt-3.5-turbo";
                  req_messages := [system_message (PyStr "sp"); user_message "hi"];
                  req_max_tokens := 10; req_kwargs := ∅ |})
          (mk_state Scenario.configured Scenario.heap0 [])) = Scenario.heap0 ∧
  (trace (log (EvChatCreate (ClientHandle 0)
                 {| req_model := PyStr "gpt-3.5-turbo";
                    req_messages := [system_message (PyStr "sp"); user_message "hi"];
                    req_max_tokens := 10; req_kwargs := ∅ |})
            (mk_state Scenario.configured Scenario.heap0 [])) = [] ∨
   ∃ c req, client Scenario.configured = Some c ∧ req_kwargs req = ∅ ∧
            trace (log (EvChatCreate (ClientHandle 0)
                          {| req_model := PyStr "gpt-3.5-turbo";
                             req_messages := [system_message (PyStr "sp"); user_message "hi"];
                             req_max_tokens := 10; req_kwargs := ∅ |})
                     (mk_state Scenario.configured Scenario.heap0 []))
            = ([] ++ [EvChatCreate c req])%list).
Proof.
  apply (generate_plain_touches_nothing Scenario.env_ok "hi" 10 ∅
           (mk_state Scenario.configured Scenario.heap0 [])
           (Ok (normalize "test-model" Scenario.two_choices))).
  vm_compute. reflexivity.
Defined.

Lemma getattr_Ok_inv {A} name (proj : OpenAILLM → option A) s a s' :
  getattr name proj s = (Ok a, s') → proj (self s) = Some a.
Proof. unfold getattr. destruct (proj (self s)); by intros [= <- <-]. Qed.

(** [_check_embeddings] either raised before it called the retriever, or
    asked [has_embedding] of the configured retriever. *)
Lemma check_embeddings_cases s r s' :
  _check_embeddings s = (r, s') →
  (s' = s ∧ ∃ e, r = Raise e) ∨
  ∃ a o st1, retriever (self s) = Some (PyRef a) ∧
             s' = after_call a o st1 (EvHasEmbedding a) s.
Proof.
  unfold _check_embeddings.
  destruct (check_retriever_cases s) as [H|H]; mstep H;
    [|intros [= <- <-]; left; by eauto].
  unfold bind at 1.
  destruct (getattr "retriever" retriever s) as [[v|e] s1] eqn:E1;
    pose proof (pure_getattr _ _ _ _ _ E1) as ->; [|intros [= <- <-]; left; by eauto].
  apply getattr_Ok_inv in E1.
  unfold bind at 1.
  destruct (invoke v _ _ _ _ s) as [[b|e] s1] eqn:E2;
    destruct (invoke_cases _ _ _ _ _ _ _ _ (pure_ret tt) E2)
      as [(-> & e0 & He) | (a & o & x & st' & -> & Ho & _ & ->)].
  - discriminate He.
  - intros H'. right. exists a, o, st'. split; [exact E1|].
    destruct (negb (truthy b)); by injection H' as <- <-.
  - intros [= <- <-]. left. by eauto.
  - intros [= <- <-]. right. by exists a, o, st'.
Qed.

(** X21. With retrieval [generate] calls in a fixed order, each at most
    once: [has_embedding] of the configured retriever, then its [retrieve]
    with the user prompt, then the provider through the wrapper's own
    client.  A call that fails ends the sequence. *)
Theorem generate_rag_call_order env up mt kw s r s' :
  generate env up true mt kw s = (r, s') →
  self s' = self s ∧
  (trace s' = trace s ∨
   ∃ a, retriever (self s) = Some (PyRef a) ∧
        (trace s' = (trace s ++ [EvHasEmbedding a])%list ∨
         trace s' = (trace s ++ [EvHasEmbedding a; EvRetrieve a up])%list ∨
         ∃ c req, client (self s) = Some c ∧
                  trace s' = (trace s ++ [EvHasEmbedding a; EvRetrieve a up;
                                          EvChatCreate c req])%list)).
Proof.
  intros Hrun. split; [exact (generate_self _ _ _ _ _ _ _ _ Hrun)|].
  revert Hrun. unfold generate.
  destruct (check_client_cases s) as [H|H]; mstep H; [|intros [= <- <-]; auto].
  unfold bind at 1.
  destruct (check_retriever_cases s) as [H'|H']; mstep H'; [|intros [= <- <-]; auto].
  unfold bind at 1.
  destruct (_check_embeddings s) as [[u|e] s1] eqn:E0;
    apply check_embeddings_cases in E0
      as [(-> & e0 & He) | (a & o & st1 & Hr & ->)]; try discriminate He.
  2:{ intros [= <- <-]. auto. }
  2:{ intros [= <- <-]. right. exists a. auto. }
  set (s1 := after_call a o st1 (EvHasEmbedding a) s).
  assert (Ht1 : trace s1 = (trace s ++ [EvHasEmbedding a])%list) by reflexivity.
  assert (Hr1 : retriever (self s1) = Some (PyRef a)) by exact Hr.
  assert (Hc1 : client (self s1) = client (self s)) by reflexivity.
  clearbody s1.
  assert (Hstop : ∀ r0, (r0, s1) = (r, s') →
            trace s' = trace s ∨
            ∃ a, retriever (self s) = Some (PyRef a) ∧
                 (trace s' = (trace s ++ [EvHasEmbedding a])%list ∨
                  trace s' = (trace s ++ [EvHasEmbedding a; EvRetrieve a up])%list ∨
                  ∃ c req, client (self s) = Some c ∧
                           trace s' = (trace s ++ [EvHasEmbedding a; EvRetrieve a up;
                                                   EvChatCreate c req])%list)).
  { intros r0 [= <- <-]. right. exists a. auto. }
  unfold bind at 1.
  destruct (getattr "client" client s1) as [[c|e] s2] eqn:E1;
    pose proof (pure_getattr _ _ _ _ _ E1) as ->; [|apply Hstop].
  apply getattr_Ok_inv in E1. rewrite Hc1 in E1.
  unfold bind at 1.
  destruct (getattr "model_version" model_version s1) as [[v|e] s2] eqn:E2;
    pose proof (pure_getattr _ _ _ _ _ E2) as ->; [|apply Hstop].
  unfold bind at 1.
  destruct (system_content kw s1) as [[sys|e] s2] eqn:E3;
    pose proof (pure_system_content _ _ _ _ E3) as ->; [|apply Hstop].
  mstep (getattr_Some "retriever" retriever s1 _ Hr1).
  unfold bind at 1.
  destruct (invoke (PyRef a) _ _ _ _ s1) as [[ctx|e] s2] eqn:E4;
    destruct (invoke_cases _ _ _ _ _ _ _ _ (pure_ret up) E4)
      as [(-> & e0 & He) | (a' & o' & x & st2 & [= <-] & Ho' & [= <-] & ->)];
    try discriminate He; try apply Hstop.
  2:{ intros [= <- <-]. right. exists a. split; [exact Hr|]. right. left.
      simpl. by rewrite Ht1, <- app_assoc. }
  destruct (chat_create env c v _ mt kw _) as [[resp|e] s3] eqn:E5;
    apply chat_create_cases in E5 as [-> | ->].
  - intros E6. apply generate_return_pure in E6 as ->.
    right. exists a. split; [exact Hr|]. right. left.
    simpl. by rewrite Ht1, <- app_assoc.
  - intros E6. apply generate_return_pure in E6 as ->.
    right. exists a. split; [exact Hr|]. right. right. eexists c, _.
    split; [exact E1|]. simpl. by rewrite Ht1, <- !app_assoc.
  - intros [= <- <-].
    right. exists a. split; [exact Hr|]. right. left.
    simpl. by rewrite Ht1, <- app_assoc.
  - intros [= <- <-].
    right. exists a. split; [exact Hr|]. right. right. eexists c, _.
    split; [exact E1|]. simpl. by rewrite Ht1, <- !app_assoc.
Qed.

Lemma generate_rag_call_order_witness :
  self Scenario2.after_rag = self (mk_state Scenario.configured Scenario.heap1 []) ∧
  (trace Scenario2.after_rag = trace (mk_state Scenario.configured Scenario.heap1 []) ∨
   ∃ a, retriever (self (mk_state Scenario.configured Scenario.heap1 [])) = Some (PyRef a) ∧
        (trace Scenario2.after_rag
         = (trace (mk_state Scenario.configured Scenario.heap1 [])
            ++ [EvHasEmbedding a])%list ∨
         trace Scenario2.after_rag
         = (trace (mk_state Scenario.configured Scenario.heap1 [])
            ++ [EvHasEmbedding a; EvRetrieve a "hi"])%list ∨
         ∃ c req, client (self (mk_state Scenario.configured Scenario.heap1 [])) = Some c ∧
                  trace Scenario2.after_rag
                  = (trace (mk_state Scenario.configured Scenario.heap1 [])
                     ++ [EvHasEmbedding a; EvRetrieve a "hi"; EvChatCreate c req])%list)).
Proof.
  apply (generate_rag_call_order Scenario.env_ok "hi" 10 ∅
           (mk_state Scenario.configured Scenario.heap1 [])
           (Ok (normalize "test-model" Scenario.two_choices))).
  vm_compute. reflexivity.
Defined.

(** X22. The only calls [embed] makes are calls of the retriever's [embed]:
    it never sends anything to the provider itself, and it assigns no
    attribute of the instance. *)
Theorem embed_calls_only_the_retriever s r s' :
  embed s = (r, s') →
  self s' = self s ∧
  ∃ new, trace s' = (trace s ++ new)%list ∧ Forall is_embed_call new.
Proof.
  intros Hrun. split; [exact (embed_self _ _ _ Hrun)|].
  assert (Hinv : inv (extends_with is_embed_call (trace s)) embed).
  { unfold embed. repeat inv_step.
    - intros. apply extends_with_heap, extends_with_log; done.
    - destruct (is_Exception _); simplify_eq. auto with inv. }
  apply (Hinv s r s'); [|exact Hrun].
  exists []. split; [by rewrite app_nil_r | constructor].
Qed.

Lemma embed_calls_only_the_retriever_witness :
  self Scenario2.after_embed = self (mk_state Scenario.configured Scenario.heap0 []) ∧
  ∃ new, trace Scenario2.after_embed
         = (trace (mk_state Scenario.configured Scenario.heap0 []) ++ new)%list ∧
         Forall is_embed_call new.
Proof.
  apply (embed_calls_only_the_retriever (mk_state Scenario.configured Scenario.heap0 [])
           (Ok {| emb_status := true;
                  emb_message := "Embeddings generated successfully.";
                  emb_embeddings := PyList [PyInt 1];
                  emb_model := "test-model" |})).
  vm_compute. reflexivity.
Defined.

(** X23. [generate] does not ask whether [configure] has been called: on
    an instance straight from [__init__] it sends the request all the
    same, with [None] as the model (and as the content of the system
    message, unless the extra options bring one). *)
Theorem generate_unconfigured_sends_model_None env up mt kw c ms name h t :
  no_clash kw →
  ∃ req,
    trace (generate env up false mt kw (mk_state (constructed_with c ms name) h t)).2
    = (t ++ [EvChatCreate c req])%list ∧
    req_model req = PyNone ∧
    req_messages req = [system_message (chosen_system_prompt kw PyNone); user_message up].
Proof.
  intros Hkw.
  rewrite (generate_plain_unfold env up mt kw (mk_state (constructed_with c ms name) h t)
             c PyNone PyNone name eq_refl eq_refl eq_refl eq_refl Hkw).
  cbv zeta. by eexists {| req_model := PyNone |}.
Qed.

Lemma generate_unconfigured_sends_model_None_witness :
  ∃ req,
    trace (generate Scenario.env_ok "hi" false 10 ∅
             (mk_state (constructed_with (ClientHandle 0) ["gpt-3.5-turbo"; "gpt-4"]
                          "test-model") ∅ [])).2
    = ([] ++ [EvChatCreate (ClientHandle 0) req])%list ∧
    req_model req = PyNone ∧
    req_messages req = [system_message (chosen_system_prompt ∅ PyNone); user_message "hi"].
Proof.
  apply (generate_unconfigured_sends_model_None Scenario.env_ok "hi" 10 ∅ (ClientHandle 0)
           ["gpt-3.5-turbo"; "gpt-4"] "test-model" ∅ []).
  repeat split; reflexivity.
Defined.

(** ** The first wrapper *)

(** X24. In the first wrapper the environment variable, once set, decides
    alone: the [api_key] argument is not looked at, a variable set to the
    empty string makes [__init__] fail whatever key was passed, and in
    either case [openai.api_key] has been overwritten with the variable's
    value. *)
Theorem legacy_environment_key_decides env name kw s k :
  Legacy.environ env !! "OPENAI_API_KEY" = Some k →
  Legacy.openai_api_key (Legacy.__init__ env name kw s).2 = PyStr k ∧
  (k ≠ "" → (Legacy.__init__ env name kw s).1 = Ok tt) ∧
  (k = "" → ∃ msg, (Legacy.__init__ env name kw s).1 = Raise (new_exc ValueError msg)).
Proof.
  intros Hk. unfold Legacy.__init__, Legacy.os_getenv. rewrite Hk. cbv zeta. simpl.
  destruct k as [|ch k]; simpl.
  - split; [reflexivity|]. split; [done|]. intros _. by eexists.
  - split; [reflexivity|]. split; [done|]. intros [=].
Qed.

Lemma legacy_environment_key_decides_witness :
  Legacy.openai_api_key
    (Legacy.__init__ Legacy.answering "m" {[ "api_key" := PyStr "passed-key" ]}
       Legacy.untouched).2 = PyStr "" ∧
  ("" ≠ "" →
   (Legacy.__init__ Legacy.answering "m" {[ "api_key" := PyStr "passed-key" ]}
      Legacy.untouched).1 = Ok tt) ∧
  ("" = "" →
   ∃ msg, (Legacy.__init__ Legacy.answering "m" {[ "api_key" := PyStr "passed-key" ]}
             Legacy.untouched).1 = Raise (new_exc ValueError msg)).
Proof.
  apply (legacy_environment_key_decides Legacy.answering "m"
           {[ "api_key" := PyStr "passed-key" ]} Legacy.untouched "").
  reflexivity.
Defined.

(** X25. [__init__] of the first wrapper assigns [openai.api_key] before it
    looks at the value: a call that fails has already replaced the key that
    was there by a false value.  It never assigns an attribute of the
    instance and makes no request. *)
Theorem legacy_failed_init_has_replaced_the_key env name kw s e s' :
  Legacy.__init__ env name kw s = (Raise e, s') →
  truthy (Legacy.openai_api_key s') = false ∧
  Legacy.model_name s' = Legacy.model_name s ∧
  Legacy.requests s' = Legacy.requests s.
Proof.
  unfold Legacy.__init__. cbv zeta. simpl.
  destruct (truthy _) eqn:Ht; simpl; [intros [=]|].
  intros [= <- <-]. simpl. by rewrite Ht.
Qed.

Lemma legacy_failed_init_has_replaced_the_key_witness :
  truthy (PyStr "") = false ∧
  Legacy.model_name Legacy.untouched = Legacy.model_name Legacy.untouched ∧
  @nil Legacy.CompletionRequest = [].
Proof.
  apply (legacy_failed_init_has_replaced_the_key Legacy.answering "m"
           {[ "api_key" := PyStr "passed-key" ]} Legacy.untouched
           (new_exc ValueError
              "OpenAI API key is required. Set it in the environment variable OPENAI_API_KEY or pass it as a parameter.")
           {| Legacy.openai_api_key := PyStr ""; Legacy.model_name := None;
              Legacy.requests := [] |}).
  vm_compute. reflexivity.
Defined.

(** X26. An instance of the first wrapper that only its own [__init__] has
    touched cannot generate: [__init__] binds no [model_name], so
    [generate] raises before any request is made (an [AttributeError] for
    [model_name] when the library has [openai.Completion.create] at all). *)
Theorem legacy_generate_needs_model_name env name kw s r s1
    prompt max_tokens temperature top_p stop kwargs :
  Legacy.model_name s = None →
  Legacy.__init__ env name kw s = (r, s1) →
  (∃ e, Legacy.generate env prompt max_tokens temperature top_p stop kwargs s1
        = (Raise e, s1)) ∧
  (∀ create, Legacy.openai_Completion_create env = Ok create →
     Legacy.generate env prompt max_tokens temperature top_p stop kwargs s1
     = (Raise (new_exc AttributeError "'OpenAI' object has no attribute 'model_name'"), s1)).
Proof.
  intros Hn Hinit.
  assert (Hn1 : Legacy.model_name s1 = None).
  { revert Hinit. unfold Legacy.__init__. cbv zeta.
    destruct (negb _); intros [= <- <-]; exact Hn. }
  unfold Legacy.generate. rewrite Hn1. split.
  - destruct (Legacy.openai_Completion_create env); by eexists.
  - by intros create ->.
Qed.

Lemma legacy_generate_needs_model_name_witness :
  (∃ e, Legacy.generate Legacy.answering_with_key "hi" 1000
          (Legacy.PyFloat 4604480259023595110) (Legacy.PyFloat 4607182418800017408) None ∅
          {| Legacy.openai_api_key := PyStr "env-key"; Legacy.model_name := None;
             Legacy.requests := [] |}
        = (Raise e, {| Legacy.openai_api_key := PyStr "env-key"; Legacy.model_name := None;
                       Legacy.requests := [] |})) ∧
  (∀ create, Legacy.openai_Completion_create Legacy.answering_with_key = Ok create →
     Legacy.generate Legacy.answering_with_key "hi" 1000
       (Legacy.PyFloat 4604480259023595110) (Legacy.PyFloat 4607182418800017408) None ∅
       {| Legacy.openai_api_key := PyStr "env-key"; Legacy.model_name := None;
          Legacy.requests := [] |}
     = (Raise (new_exc AttributeError "'OpenAI' object has no attribute 'model_name'"),
        {| Legacy.openai_api_key := PyStr "env-key"; Legacy.model_name := None;
           Legacy.requests := [] |})).
Proof.
  apply (legacy_generate_needs_model_name Legacy.answering_with_key "m" ∅ Legacy.untouched
           (Ok tt)).
  - reflexivity.
  - vm_compute. reflexivity.
Defined.
